(** * pyminio: the tiered cache of [pyminio.memory]

    A shallow embedding of [pyminio/memory/base.py], [ram.py], [disk.py] and
    [cloud.py], and the properties of the scoring model, the cell contract
    and the manager life cycle; then of the object-storage wrapper
    [pyminio/storage.py], with [base/storage.py] and [utils/extensions.py].

    Conventions of the embedding.
    - Python [int] is [Z].
    - A [datetime] is the number of microseconds since a fixed origin and a
      [timedelta] a signed number of microseconds, which is the resolution
      the [datetime] module keeps.
    - Python [float] arithmetic is idealised as exact rational arithmetic
      ([Q], compared with [==]); rounding is not modelled, nor is the
      [OverflowError] of numbers beyond the range of a float (sizes and
      counts from about 2^1024).  A float division raises
      [ZeroDivisionError] on a zero divisor, as in Python.
    - [datetime.datetime.now()] is an input of every operation that reads
      the clock.
    - A method is a computation in a state-and-exception monad over the
      object it mutates: an exception keeps the assignments made before it
      was raised. *)

From Stdlib Require Import ZArith QArith Qfield Lia Lqa.
From Stdlib.Strings Require Import Byte.
From stdpp Require Import base option gmap strings.

Local Open Scope Z_scope.

(** ** Exceptions, and methods as state-and-exception computations *)

Inductive exn : Type :=
| ZeroDivisionError
| KeyError (key : string)
| TypeError
| RuntimeError
| CallError (msg : string).

Inductive result (A : Type) : Type :=
| Return (a : A)
| Raise (e : exn).
Arguments Return {A} a.
Arguments Raise {A} e.

Definition M (S A : Type) : Type := S -> result A * S.

Definition raise {S A : Type} (e : exn) : M S A := fun self => (Raise e, self).

(** An outcome computed without touching the object. *)
Definition lift {S A : Type} (r : result A) : M S A := fun self => (r, self).

Definition getattr {S A : Type} (field : S -> A) : M S A :=
  fun self => (Return (field self), self).

Definition setattr {S : Type} (update : S -> S) : M S unit :=
  fun self => (Return tt, update self).

#[global] Instance M_ret {S : Type} : MRet (M S) :=
  fun A a self => (Return a, self).

#[global] Instance M_bind {S : Type} : MBind (M S) :=
  fun A B k m self =>
    match m self with
    | (Return a, self') => k a self'
    | (Raise e, self') => (Raise e, self')
    end.

(** [cls(...)]: a class that still has abstract methods cannot be
    instantiated, [ABCMeta] raises [TypeError] before any constructor runs;
    otherwise the outcome is that of the constructor.  [open_methods] are
    the abstract methods the class of the object leaves unimplemented. *)
Definition instantiate {A : Type} (open_methods : list string) (constructor : result A)
  : result A :=
  match open_methods with
  | [] => constructor
  | _ :: _ => Raise TypeError
  end.

(** ** Python values

    The payload of a cell ([entity]) is dynamically typed: [bytes], a path,
    a pair of an argument list and a keyword dictionary, or [None]. *)

#[local] Unset Elimination Schemes.
Inductive pyval : Type :=
| PyNone
| PyInt (n : Z)
| PyStr (s : string)
| PyBytes (b : list byte)
| PyTuple (items : list pyval)
| PyList (items : list pyval)
| PyDict (items : list (string * pyval)).
#[local] Set Elimination Schemes.

(** A [str] is held as its UTF-8 encoding; its length is the number of
    its code points, the bytes that are not continuation bytes
    ([10xxxxxx]). *)
Definition is_continuation (c : Ascii.ascii) : bool :=
  match c with
  | Ascii.Ascii _ _ _ _ _ _ b6 b7 => b7 && negb b6
  end.

Fixpoint code_points (s : string) : nat :=
  match s with
  | EmptyString => 0
  | String c s' => (if is_continuation c then 0 else 1) + code_points s'
  end.

(** [len(v)] *)
Definition len (v : pyval) : result Z :=
  match v with
  | PyNone | PyInt _ => Raise TypeError
  | PyStr s => Return (Z.of_nat (code_points s))
  | PyBytes b => Return (Z.of_nat (length b))
  | PyTuple items | PyList items => Return (Z.of_nat (length items))
  | PyDict items => Return (Z.of_nat (length items))
  end.

(** Truth value of [v] in a condition. *)
Definition truthy (v : pyval) : bool :=
  match v with
  | PyNone => false
  | PyInt n => negb (n =? 0)
  | PyStr s => negb (Nat.eqb (String.length s) 0)
  | PyBytes b => negb (Nat.eqb (length b) 0)
  | PyTuple items | PyList items => negb (Nat.eqb (length items) 0)
  | PyDict items => negb (Nat.eqb (length items) 0)
  end.

(** [isinstance(v, bytes)] *)
Definition is_bytes (v : pyval) : bool :=
  match v with
  | PyBytes _ => true
  | _ => false
  end.

(** An [io.BytesIO]: the buffer and the position of the stream. *)
Module io.

Record BytesIO : Type := mkBytesIO {
  getvalue : list byte;
  tell : nat
}.

(** [io.BytesIO(initial_bytes)] on the values of [pyval]: [None] gives an
    empty buffer, [bytes] a buffer holding them; the other values of
    [pyval] are not bytes-like.  (Bytes-like objects that [pyval] does not
    have, a [bytearray] say, are outside this definition.) *)
Definition BytesIO_of (initial_bytes : pyval) : result BytesIO :=
  match initial_bytes with
  | PyNone => Return (mkBytesIO [] 0)
  | PyBytes b => Return (mkBytesIO b 0)
  | _ => Raise TypeError
  end.

End io.

(** [pyminio/utils/extensions.py] *)
Module extensions.

Definition bytes_to_io (data : list byte) : io.BytesIO := io.mkBytesIO data 0.

Definition io_to_bytes (data : io.BytesIO) : list byte := io.getvalue data.

End extensions.

(** ** Numbers and time *)

Definition datetime : Type := Z.
Definition timedelta : Type := Z.

(** [timedelta.total_seconds()] *)
Definition total_seconds (td : timedelta) : Q := (inject_Z td / inject_Z 1000000)%Q.

(** [a / b] on floats *)
Definition truediv {S : Type} (a b : Q) : M S Q :=
  if Qeq_bool b 0 then raise ZeroDivisionError else mret (a / b)%Q.

(** Truth value of an [int] in a condition: zero is false. *)
Definition truthy_int (n : Z) : bool := negb (n =? 0).

(** ** [CacheStats] *)

Module CacheStats.

Record t : Type := mk {
  hit_count : Z;
  last_hit : datetime;
  size : Z;
  recency : Q;
  size_factor : Q;
  _score : Q
}.

Definition set_hit_count (v : Z) (self : t) : t :=
  mk v (last_hit self) (size self) (recency self) (size_factor self) (_score self).
Definition set_last_hit (v : datetime) (self : t) : t :=
  mk (hit_count self) v (size self) (recency self) (size_factor self) (_score self).
Definition set_size (v : Z) (self : t) : t :=
  mk (hit_count self) (last_hit self) v (recency self) (size_factor self) (_score self).
Definition set_recency (v : Q) (self : t) : t :=
  mk (hit_count self) (last_hit self) (size self) v (size_factor self) (_score self).
Definition set_size_factor (v : Q) (self : t) : t :=
  mk (hit_count self) (last_hit self) (size self) (recency self) v (_score self).
Definition set__score (v : Q) (self : t) : t :=
  mk (hit_count self) (last_hit self) (size self) (recency self) (size_factor self) v.

(** [CacheStats.__init__(self, size=0)], constructed at time [now]. *)
Definition __init__ (now : datetime) (size : Z) : t :=
  mk 0 now size 1 1 (1 # 2).

(** [CacheStats.hit(self, size=None)], called at time [now]. *)
Definition hit (now : datetime) (size : option Z) : M t unit :=
  n ← getattr hit_count;
  setattr (set_hit_count (n + 1));;
  setattr (set_last_hit now);;
  match size with
  | Some v => if truthy_int v then setattr (set_size v) else mret tt
  | None => mret tt
  end.

(** The property [CacheStats.score], read at time [now]. *)
Definition score (now : datetime) : M t Q :=
  lh ← getattr last_hit;
  r ← truediv 1 (1 + total_seconds (now - lh)%Z / 3600)%Q;
  setattr (set_recency r);;
  sz ← getattr size;
  f ← truediv 1 (1 + inject_Z sz / inject_Z (1024 * 1024))%Q;
  setattr (set_size_factor f);;
  n ← getattr hit_count;
  r' ← getattr recency;
  f' ← getattr size_factor;
  setattr (set__score ((1 # 2) * inject_Z n + (3 # 10) * r' + (2 # 10) * f')%Q);;
  getattr _score.

(** The three values a read of [score] at time [now] assigns (lines 25 to
    27 of [base.py]), for stating what the read leaves behind. *)
Definition recency_at (now : datetime) (self : t) : Q :=
  (1 / (1 + total_seconds (now - last_hit self)%Z / 3600))%Q.
Definition size_factor_of (self : t) : Q :=
  (1 / (1 + inject_Z (size self) / inject_Z (1024 * 1024)))%Q.
Definition score_at (now : datetime) (self : t) : Q :=
  ((1 # 2) * inject_Z (hit_count self)
   + (3 # 10) * recency_at now self
   + (2 # 10) * size_factor_of self)%Q.

End CacheStats.

(** ** Cells *)

Module MemoryCell.

Record t : Type := mk {
  key : string;
  entity : pyval;
  stats : CacheStats.t
}.

Definition set_entity (v : pyval) (self : t) : t := mk (key self) v (stats self).

(** The assignments of [MemoryCell.__init__(self, key, logger,
    entity=None)] at time [now] (lines 40 to 43): what the constructor
    leaves once the call of line 39 has returned.  The logger leaves no
    trace in the cell. *)
Definition __init__ (now : datetime) (key : string) (logger entity : pyval) : t :=
  let size :=
    if is_bytes entity
    then match len entity with Return n => n | Raise _ => 0 end
    else 0 in
  mk key entity (CacheStats.__init__ now size).

(** The whole of [MemoryCell.__init__]: line 39 first hands [logger] to the
    constructor of the class that follows [LoggedObject] in the method
    resolution order.  That class is outside the repository; [logged] is
    the outcome of its constructor on the logger it receives. *)
Definition construct (logged : pyval -> result unit) (now : datetime) (key : string)
    (logger entity : pyval) : result t :=
  match logged logger with
  | Return _ => Return (__init__ now key logger entity)
  | Raise e => Raise e
  end.

(** The abstract method the three cell classes leave unimplemented. *)
Definition open_methods : list string := ["morph"].

End MemoryCell.

Module RAMCell.

Definition t : Type := MemoryCell.t.

(** [RAMCell.__init__(self, key, entity)]: [super().__init__(key, entity)]
    binds the second positional argument to [logger]. *)
Definition __init__ (now : datetime) (key : string) (entity : pyval) : t :=
  MemoryCell.__init__ now key entity PyNone.

(** [cls(key, entity)] for [RAMCell] or a subclass of it that keeps this
    constructor. *)
Definition new (open_methods : list string) (logged : pyval -> result unit)
    (now : datetime) (key : string) (entity : pyval) : result t :=
  instantiate open_methods (MemoryCell.construct logged now key entity PyNone).

Definition __get__ : M t pyval := getattr MemoryCell.entity.

Definition __set__ (value : pyval) : M t unit :=
  setattr (MemoryCell.set_entity value).

Definition __del__ : M t unit := setattr (MemoryCell.set_entity PyNone).

Definition __sizeof__ : M t Z :=
  e ← getattr MemoryCell.entity;
  if truthy e then lift (len e) else mret 0.

End RAMCell.

Module DiskCell.

Definition t : Type := MemoryCell.t.

(** [DiskCell.__init__(self, key, entity)] *)
Definition __init__ (now : datetime) (key : string) (entity : pyval) : t :=
  MemoryCell.__init__ now key entity PyNone.

(** [cls(key, entity)] for [DiskCell] or a subclass of it that keeps this
    constructor. *)
Definition new (open_methods : list string) (logged : pyval -> result unit)
    (now : datetime) (key : string) (entity : pyval) : result t :=
  instantiate open_methods (MemoryCell.construct logged now key entity PyNone).

Definition __set__ (value : pyval) : M t unit :=
  setattr (MemoryCell.set_entity value).

Definition __del__ : M t unit := setattr (MemoryCell.set_entity PyNone).

(** [DiskCell.__get__]: [io.BytesIO(self.entity)] *)
Definition __get__ : M t io.BytesIO :=
  e ← getattr MemoryCell.entity;
  lift (io.BytesIO_of e).

(** [DiskCell.__sizeof__]; [getsize] is [os.path.getsize] on the file
    system the cell lives on. *)
Definition __sizeof__ (getsize : pyval -> result Z) : M t Z :=
  e ← getattr MemoryCell.entity;
  if truthy e then lift (getsize e) else mret 0.

End DiskCell.

Module CloudCell.

(** [call_fn : Callable | Future].  For a callable, [f args] is the outcome
    of awaiting the call [call_fn(args)]: the value it resolves to, or the
    exception it ends with.  A future carries its outcome but cannot be
    called. *)
Inductive call_fn_t : Type :=
| Callable (f : pyval -> result pyval)
| Future (outcome : result pyval).

Record t : Type := mk {
  super : MemoryCell.t;
  call_fn : call_fn_t
}.

Definition key (self : t) : string := MemoryCell.key (super self).
Definition entity (self : t) : pyval := MemoryCell.entity (super self).
Definition stats (self : t) : CacheStats.t := MemoryCell.stats (super self).

Definition set_entity (v : pyval) (self : t) : t :=
  mk (MemoryCell.set_entity v (super self)) (call_fn self).

(** [CloudCell.__init__(self, key, entity, call_fn)] at time [now]: the
    base constructor receives [entity] in the position of [logger]; the
    payload is then assigned here. *)
Definition __init__ (now : datetime) (key : string) (entity : pyval)
    (call_fn : call_fn_t) : t :=
  set_entity entity (mk (MemoryCell.__init__ now key entity PyNone) call_fn).

(** [cls(key, entity, call_fn)] for [CloudCell] or a subclass of it that
    keeps this constructor. *)
Definition new (open_methods : list string) (logged : pyval -> result unit)
    (now : datetime) (key : string) (entity : pyval) (call_fn : call_fn_t)
  : result t :=
  instantiate open_methods
    match MemoryCell.construct logged now key entity PyNone with
    | Return base => Return (set_entity entity (mk base call_fn))
    | Raise e => Raise e
    end.

(** [await fn(args)] *)
Definition await_call {S : Type} (fn : call_fn_t) (args : pyval) : M S pyval :=
  match fn with
  | Callable f => lift (f args)
  | Future _ => raise TypeError
  end.

(** [CloudCell.__get__]: the awaited value is dropped, and the method ends
    without a [return]. *)
Definition __get__ : M t pyval :=
  fn ← getattr call_fn;
  e ← getattr entity;
  await_call fn e;;
  mret PyNone.

Definition __set__ (value : pyval) : M t unit := setattr (set_entity value).

Definition __del__ : M t unit := setattr (set_entity PyNone).

Definition __sizeof__ : M t Z :=
  e ← getattr entity;
  if truthy e then lift (len e) else mret 0.

End CloudCell.

(** ** Managers *)

Module MemoryManager.

(** The two background coroutines a manager spawns. *)
Inductive coroutine : Type := _periodic_rerank | _forced_rerank.

(** The state of an [asyncio.Task]: pending, with the number of
    cancellation requests it has received so far ([Task.cancelling()]), or
    done ([Task.done()]), be it finished or cancelled. *)
Inductive task_state : Type :=
| Pending (cancel_requests : nat)
| Done.

(** An [asyncio.Task]: the coroutine it wraps and its state. *)
Record Task : Type := mkTask {
  coro : coroutine;
  state : task_state
}.

(** [Task.cancel()]: nothing happens to a task that is done; a pending
    task counts one more request. *)
Definition cancel (task : Task) : Task :=
  match state task with
  | Pending n => mkTask (coro task) (Pending (S n))
  | Done => task
  end.

(** The event loop runs a task to its end: its coroutine returned, or a
    requested cancellation was delivered. *)
Definition finish (task : Task) : Task := mkTask (coro task) Done.

(** The abstract methods of [MemoryManager] that none of the three tier
    classes implements. *)
Definition open_methods : list string :=
  ["promote_request"; "__setitem__"; "__delitem__"; "__sizeof__"; "__contains__";
   "__iter__"; "__len__"; "_forced_rerank"; "_periodic_rerank"].

Section Generic.
Context {T : Type}.

(** [_rerank_event] is the flag of the [asyncio.Event]. *)
Record t : Type := mk {
  _capacity : Z;
  _cells : gmap string T;
  _size : Z;
  _rerank_event : bool;
  _running : bool;
  _periodic_task : option Task;
  _forced_task : option Task
}.

Definition set__rerank_event (v : bool) (self : t) : t :=
  mk (_capacity self) (_cells self) (_size self) v (_running self)
     (_periodic_task self) (_forced_task self).
Definition set__running (v : bool) (self : t) : t :=
  mk (_capacity self) (_cells self) (_size self) (_rerank_event self) v
     (_periodic_task self) (_forced_task self).
Definition set__periodic_task (v : option Task) (self : t) : t :=
  mk (_capacity self) (_cells self) (_size self) (_rerank_event self)
     (_running self) v (_forced_task self).
Definition set__forced_task (v : option Task) (self : t) : t :=
  mk (_capacity self) (_cells self) (_size self) (_rerank_event self)
     (_running self) (_periodic_task self) v.

(** The assignments of [MemoryManager.__init__(self,
    capacity=1024*1024*1024)] (lines 71 to 77): what the constructor
    leaves once the call of line 70 has returned. *)
Definition __init__ (capacity : Z) : t :=
  mk capacity ∅ 0 false true None None.

(** The whole of [MemoryManager.__init__]: line 70 first hands the logger
    to the constructor of the class that follows [LoggedObject] in the
    method resolution order, which is outside the repository; [logged] is
    the outcome of that call. *)
Definition construct (logged : result unit) (capacity : Z) : result t :=
  match logged with
  | Return _ => Return (__init__ capacity)
  | Raise e => Raise e
  end.

Definition used (self : t) : Z := _size self.

Definition free (self : t) : Z := _capacity self - _size self.

Definition capacity (self : t) : Z := _capacity self.

(** [asyncio.create_task(c)]: needs a running event loop. *)
Definition create_task (loop_running : bool) (c : coroutine) : M t Task :=
  if loop_running then mret (mkTask c (Pending 0)) else raise RuntimeError.

(** [MemoryManager.start(self)]; [loop_running] tells whether the caller
    runs inside an event loop. *)
Definition start (loop_running : bool) : M t unit :=
  setattr (set__running true);;
  p ← create_task loop_running _periodic_rerank;
  setattr (set__periodic_task (Some p));;
  f ← create_task loop_running _forced_rerank;
  setattr (set__forced_task (Some f)).

(** [MemoryManager.stop(self)]: a task object is true in a condition,
    [None] is false. *)
Definition stop : M t unit :=
  setattr (set__running false);;
  setattr (set__rerank_event false);;
  p ← getattr _periodic_task;
  match p with
  | Some task => setattr (set__periodic_task (Some (cancel task)))
  | None => mret tt
  end;;
  f ← getattr _forced_task;
  match f with
  | Some task => setattr (set__forced_task (Some (cancel task)))
  | None => mret tt
  end.

(** [MemoryManager.__aenter__(self)] *)
Definition __aenter__ (loop_running : bool) : M t t :=
  start loop_running;;
  getattr (fun self => self).

(** [MemoryManager.__aexit__(self, exc_type, exc_value, traceback)] *)
Definition __aexit__ : M t unit := stop.

End Generic.
Arguments t T : clear implicits.

End MemoryManager.

(** The three tier managers extend [MemoryManager] in the same way: the
    constructor adds a dictionary [cells], and [__getitem__] indexes it. *)
Module TierManager.

Section Generic.
Context {T : Type}.

Record t : Type := mk {
  super : MemoryManager.t T;
  cells : gmap string T
}.

(** A method inherited from [MemoryManager] runs on the base attributes. *)
Definition inherited {A : Type} (m : M (MemoryManager.t T) A) : M t A :=
  fun self =>
    let (r, base) := m (super self) in (r, mk base (cells self)).

Definition __init__ (capacity : Z) : t :=
  mk (MemoryManager.__init__ capacity) ∅.

(** The whole constructor of a tier class: the base constructor, then the
    dictionary [cells]. *)
Definition construct (logged : result unit) (capacity : Z) : result t :=
  match MemoryManager.construct logged capacity with
  | Return base => Return (mk base ∅)
  | Raise e => Raise e
  end.

(** [cls(capacity)] for a tier class or a subclass of it that keeps its
    constructor. *)
Definition new (open_methods : list string) (logged : result unit) (capacity : Z)
  : result t :=
  instantiate open_methods (construct logged capacity).

(** [self.cells[key]]: a missing key raises [KeyError]. *)
Definition __getitem__ (key : string) : M t T :=
  d ← getattr cells;
  match d !! key with
  | Some cell => mret cell
  | None => raise (KeyError key)
  end.

Definition used (self : t) : Z := MemoryManager.used (super self).
Definition free (self : t) : Z := MemoryManager.free (super self).
Definition capacity (self : t) : Z := MemoryManager.capacity (super self).
Definition start (loop_running : bool) : M t unit :=
  inherited (MemoryManager.start loop_running).
Definition stop : M t unit := inherited MemoryManager.stop.

End Generic.
Arguments t T : clear implicits.

End TierManager.

Module RAMManager.
Definition t : Type := TierManager.t RAMCell.t.
Definition __init__ (capacity : Z) : t := TierManager.__init__ capacity.
Definition __getitem__ (key : string) : M t RAMCell.t :=
  TierManager.__getitem__ key.
Definition new (open_methods : list string) (logged : result unit) (capacity : Z)
  : result t :=
  TierManager.new open_methods logged capacity.
End RAMManager.

Module DiskManager.
Definition t : Type := TierManager.t DiskCell.t.
Definition __init__ (capacity : Z) : t := TierManager.__init__ capacity.
Definition __getitem__ (key : string) : M t DiskCell.t :=
  TierManager.__getitem__ key.
Definition new (open_methods : list string) (logged : result unit) (capacity : Z)
  : result t :=
  TierManager.new open_methods logged capacity.
End DiskManager.

Module CloudManager.
Definition t : Type := TierManager.t CloudCell.t.
Definition __init__ (capacity : Z) : t := TierManager.__init__ capacity.
Definition __getitem__ (key : string) : M t CloudCell.t :=
  TierManager.__getitem__ key.
Definition new (open_methods : list string) (logged : result unit) (capacity : Z)
  : result t :=
  TierManager.new open_methods logged capacity.
End CloudManager.

(** ** Histories of a manager

    The states a tier manager goes through: built by its constructor, then
    driven by the methods the classes implement.  No method of the classes
    writes [cells]; its owner fills the public dictionary directly, which
    [Fill] stands for.  Between two calls the event loop may run a task
    the manager holds to its end, which [TaskEnds] stands for. *)

Module History.

Section Generic.
Context {T : Type}.

Inductive op : Type :=
| Start (loop_running : bool)
| Stop
| GetItem (key : string)
| ReadUsed
| ReadFree
| ReadCapacity
| Fill (key : string) (cell : T)
| TaskEnds (c : MemoryManager.coroutine).

(** The manager once the event loop has run the task it holds for [c], if
    any, to its end. *)
Definition task_ends (c : MemoryManager.coroutine) (m : MemoryManager.t T)
  : MemoryManager.t T :=
  match c with
  | MemoryManager._periodic_rerank =>
      MemoryManager.set__periodic_task
        (MemoryManager.finish <$> MemoryManager._periodic_task m) m
  | MemoryManager._forced_rerank =>
      MemoryManager.set__forced_task
        (MemoryManager.finish <$> MemoryManager._forced_task m) m
  end.

(** The manager after one operation, whether it returned or raised. *)
Definition step (self : TierManager.t T) (o : op) : TierManager.t T :=
  match o with
  | Start loop_running => snd (TierManager.start loop_running self)
  | Stop => snd (TierManager.stop self)
  | GetItem key => snd (TierManager.__getitem__ key self)
  | ReadUsed | ReadFree | ReadCapacity => self
  | Fill key cell =>
      TierManager.mk (TierManager.super self) (<[key := cell]> (TierManager.cells self))
  | TaskEnds c =>
      TierManager.mk (task_ends c (TierManager.super self)) (TierManager.cells self)
  end.

Definition run (ops : list op) (self : TierManager.t T) : TierManager.t T :=
  fold_left step ops self.

End Generic.
Arguments op T : clear implicits.

End History.




(** ** The score as the specification words it *)

(** Hours between [last_hit] and [now]: 3600 seconds of 10^6 microseconds. *)
Definition hours_since (last_hit now : datetime) : Q :=
  (inject_Z (now - last_hit) / inject_Z 3600000000)%Q.

(** [0.5*hit_count + 0.3*recency + 0.2*size_factor] with
    [recency = 1/(1 + h)] and [size_factor = 1/(1 + size/2^20)]. *)
Definition score_spec (hit_count : Z) (h : Q) (size : Z) : Q :=
  ((5 # 10) * inject_Z hit_count
   + (3 # 10) * (1 / (1 + h))
   + (2 # 10) * (1 / (1 + inject_Z size / inject_Z (2 ^ 20))))%Q.

(** ** Sample objects *)

Definition abc : list byte := [x61; x62; x63].

(** [CacheStats(5)] built at time 0. *)
Definition sample_stats : CacheStats.t := CacheStats.__init__ 0 5.

(** [RAMCell("a", b"abc")] built at time 0, then written with [b"abc"]. *)
Definition sample_ram_cell : RAMCell.t :=
  snd (RAMCell.__set__ (PyBytes abc) (RAMCell.__init__ 0 "a" (PyBytes abc))).

Definition sample_ram : RAMManager.t :=
  History.run [History.Fill "a" sample_ram_cell] (RAMManager.__init__ 1024).

(** [DiskCell("d", "/tmp/d")] built at time 0, then written with [b"abc"]. *)
Definition sample_disk_cell : DiskCell.t :=
  snd (DiskCell.__set__ (PyBytes abc) (DiskCell.__init__ 0 "d" (PyStr "/tmp/d"))).

(** A remote fetch that resolves to three bytes. *)
Definition fetch_abc : CloudCell.call_fn_t :=
  CloudCell.Callable (fun _ => Return (PyBytes abc)).

Definition sample_cloud_cell : CloudCell.t :=
  CloudCell.__init__ 0 "k" (PyTuple [PyList []; PyDict []]) fetch_abc.

(** ** The storage base class ([pyminio/base/storage.py], [errors.py]) *)

Module BaseStorage.

(** [BackendNotSupportedError(backend)]: the exception and its message. *)
Inductive error : Type :=
| BackendNotSupportedError (message : string).

Definition not_supported (backend : string) : error :=
  BackendNotSupportedError ("Backend " +:+ backend +:+ " is not supported yet").

(** The check [Storage.__init__] opens with; what follows it is the
    constructor of [LoggedObject], outside the repository. *)
Definition __init__ (endpoint access_key secret_key backend : string) : unit + error :=
  if negb (String.eqb backend "minio")
  then inr (not_supported backend)
  else inl tt.

End BaseStorage.

(** ** The object-storage wrapper ([pyminio/storage.py])

    The Minio client and the responses it returns belong to a library
    outside the repository.  They are taken as parameters: every call is a
    function of the state [W] of the remote store that returns a value or
    an exception of the library, and a new state. *)

Module Storage.

(** An exception raised by the client library: whether it derives from
    [Exception] (and is caught by [except Exception]) and its text. *)
Record client_error : Type := mkClientError {
  is_exception : bool;
  text : string
}.

Inductive error : Type :=
| ValueError (msg : string)
| IndexError
| UnboundLocalError (name : string)
| Exception (msg : string) (cause : client_error)
| Foreign (e : client_error).

Inductive outcome (A : Type) : Type :=
| Ok (a : A)
| Fail (e : error).
Arguments Ok {A} a.
Arguments Fail {A} e.

Section WithClient.
Context {W WriteResult Buckets Objects : Type}.

(** A call into the library. *)
Definition call (A : Type) : Type := W -> (A + client_error) * W.

(** A method of the wrapper. *)
Definition SM (A : Type) : Type := W -> outcome A * W.

#[global] Instance SM_ret : MRet SM := fun A a w => (Ok a, w).

#[global] Instance SM_bind : MBind SM :=
  fun A B k m w =>
    match m w with
    | (Ok a, w') => k a w'
    | (Fail e, w') => (Fail e, w')
    end.

Definition fail {A : Type} (e : error) : SM A := fun w => (Fail e, w).

(** A call whose exception, if any, propagates unchanged. *)
Definition propagate {A : Type} (c : call A) : SM A :=
  fun w =>
    match c w with
    | (inl a, w') => (Ok a, w')
    | (inr e, w') => (Fail (Foreign e), w')
    end.

(** The response of [Minio.get_object]: the attribute [data], the truth
    value of the object, and its methods [close] and [release_conn]. *)
Record Response : Type := mkResponse {
  data : call (list byte);
  truth : bool;
  close : call unit;
  release_conn : call unit
}.

(** The methods of a [Minio] client the wrapper calls, arguments in the
    order of the library. *)
Record Minio : Type := mkMinio {
  client_list_buckets : call Buckets;
  client_get_object : string -> string -> call Response;
  client_list_objects : string -> string -> call Objects;
  client_fput_object : string -> string -> string -> call WriteResult;
  client_remove_object : string -> string -> call unit;
  client_remove_bucket : string -> call unit;
  client_make_bucket : string -> call unit
}.

(** [Minio(endpoint, access_key, secret_key)] *)
Context (new_client : string -> string -> string -> Minio + client_error).

Record t : Type := mk {
  endpoint : string;
  access_key : string;
  secret_key : string;
  _current_bucket : option string
}.

Definition __init__ (endpoint access_key secret_key : string) : t :=
  mk endpoint access_key secret_key None.

(** The property [client]: a new client on every access. *)
Definition client (self : t) : Minio + client_error :=
  new_client (endpoint self) (access_key self) (secret_key self).

(** [self.client.method(...)] *)
Definition via_client {A : Type} (self : t) (method : Minio -> call A) : call A :=
  fun w =>
    match client self with
    | inl c => method c w
    | inr e => (inr e, w)
    end.

Definition current_bucket (self : t) : option string := _current_bucket self.

Definition set_current_bucket (value : string) (self : t) : t :=
  mk (endpoint self) (access_key self) (secret_key self) (Some value).

Definition no_bucket : error :=
  ValueError "Bucket name must be provided or current bucket must be set".

(** The lines every method taking [bucket_name] opens with. *)
Definition resolve_bucket (self : t) (bucket_name : option string) : SM string :=
  match bucket_name with
  | Some b => mret b
  | None =>
      match current_bucket self with
      | None => fail no_bucket
      | Some b => mret b
      end
  end.

Definition list_buckets (self : t) : SM Buckets :=
  propagate (via_client self client_list_buckets).

Definition failed_to_get (object_name bucket_name : string) (e : client_error) : string :=
  "Failed to get object " +:+ object_name +:+ " from bucket " +:+ bucket_name
  +:+ ": " +:+ text e.

(** [Storage.get_object]: [try], [except Exception], [finally].  When the
    call itself raises, the local [response] was never bound, and the
    [finally] clause, which runs last, fails on reading it. *)
Definition get_object (self : t) (object_name : string) (bucket_name : option string)
  : SM io.BytesIO :=
  bucket ← resolve_bucket self bucket_name;
  (fun w =>
    match via_client self (fun c => client_get_object c bucket object_name) w with
    | (inr e, w1) => (Fail (UnboundLocalError "response"), w1)
    | (inl response, w1) =>
        let '(body, w2) :=
          match data response w1 with
          | (inl d, w2) => (Ok (extensions.bytes_to_io d), w2)
          | (inr e, w2) =>
              (Fail (if is_exception e
                     then Exception (failed_to_get object_name bucket e) e
                     else Foreign e), w2)
          end in
        if truth response
        then match close response w2 with
             | (inr e, w3) => (Fail (Foreign e), w3)
             | (inl _, w3) =>
                 match release_conn response w3 with
                 | (inr e, w4) => (Fail (Foreign e), w4)
                 | (inl _, w4) => (body, w4)
                 end
             end
        else (body, w2)
    end) : SM io.BytesIO.

Definition list_objects (self : t) (prefix : string) (bucket_name : option string)
  : SM Objects :=
  bucket ← resolve_bucket self bucket_name;
  propagate (via_client self (fun c => client_list_objects c bucket prefix)).

Definition put_object (self : t) (object_name file_path : string)
    (bucket_name : option string) : SM WriteResult :=
  bucket ← resolve_bucket self bucket_name;
  propagate (via_client self (fun c => client_fput_object c bucket object_name file_path)).

Definition remove_object (self : t) (object_name : string) (bucket_name : option string)
  : SM unit :=
  bucket ← resolve_bucket self bucket_name;
  propagate (via_client self (fun c => client_remove_object c bucket object_name)).

Definition remove_bucket (self : t) (bucket_name : option string) : SM unit :=
  bucket ← resolve_bucket self bucket_name;
  propagate (via_client self (fun c => client_remove_bucket c bucket)).

Definition make_bucket (self : t) (bucket_name : option string) : SM unit :=
  bucket ← resolve_bucket self bucket_name;
  propagate (via_client self (fun c => client_make_bucket c bucket)).

(** The keys of the subscript methods, as their signatures type them;
    [KOther] is a key that is neither a tuple, a [str] nor a list, with
    the text of its type. *)
Inductive key : Type :=
| KStr (object_name : string)
| KPair (first second : string)
| KPairList (first : string) (second : list string)
| KListPairs (items : list (string * string))
| KListStrs (items : list string)
| KOther (type_text : string).

(** What a subscript method does with its calls: makes one itself, hands
    a list of them to a [ThreadPoolExecutor] in this order (they then run
    concurrently and their results are gathered in order of completion),
    or raises before making any. *)
Inductive dispatch (A : Type) : Type :=
| Direct (step : A)
| Pooled (jobs : list A)
| Raises (e : error).
Arguments Direct {A} step.
Arguments Pooled {A} jobs.
Arguments Raises {A} e.

Definition invalid_key (type_text : string) : error :=
  ValueError ("Invalid key type: " +:+ type_text).

(** What a dispatch amounts to, whatever its calls are: one call, a pool
    of so many jobs, or an exception. *)
Inductive shape : Type :=
| OneCall
| PoolOf (jobs : nat)
| Failure (e : error).

Definition shape_of {A : Type} (d : dispatch A) : shape :=
  match d with
  | Direct _ => OneCall
  | Pooled jobs => PoolOf (length jobs)
  | Raises e => Failure e
  end.

(** [Storage.__getitem__]: the calls of [get_object] it makes. *)
Definition __getitem__ (self : t) (k : key) : dispatch (SM io.BytesIO) :=
  match k with
  | KPairList first second =>
      Pooled (map (fun b => get_object self first (Some b)) second)
  | KPair first second => Direct (get_object self first (Some second))
  | KStr object_name => Direct (get_object self object_name None)
  | KListPairs [] | KListStrs [] => Raises IndexError
  | KListPairs items =>
      Pooled (map (fun p => get_object self (fst p) (Some (snd p))) items)
  | KListStrs items => Pooled (map (fun o => get_object self o None) items)
  | KOther type_text => Raises (invalid_key type_text)
  end.

(** [Storage.__setitem__]: the calls of [put_object] it makes; its
    parameters are, in order, [object_name], [file_path], [bucket_name]. *)
Definition __setitem__ (self : t) (k : key) (file_path : string)
  : dispatch (SM WriteResult) :=
  match k with
  | KPairList first second =>
      Pooled (map (fun b => put_object self first b (Some file_path)) second)
  | KPair first second => Direct (put_object self first second (Some file_path))
  | KStr object_name => Direct (put_object self object_name file_path None)
  | KListPairs [] | KListStrs [] => Raises IndexError
  | KListPairs items =>
      Pooled (map (fun p => put_object self (fst p) (snd p) (Some file_path)) items)
  | KListStrs items => Pooled (map (fun o => put_object self o file_path None) items)
  | KOther type_text => Raises (invalid_key type_text)
  end.

(** [Storage.__delitem__]: the calls of [remove_object] it makes. *)
Definition __delitem__ (self : t) (k : key) : dispatch (SM unit) :=
  match k with
  | KPairList first second =>
      Pooled (map (fun b => remove_object self first (Some b)) second)
  | KPair first second => Direct (remove_object self first (Some second))
  | KStr object_name => Direct (remove_object self object_name None)
  | KListPairs [] | KListStrs [] => Raises IndexError
  | KListPairs items =>
      Pooled (map (fun p => remove_object self (fst p) (Some (snd p))) items)
  | KListStrs items => Pooled (map (fun o => remove_object self o None) items)
  | KOther type_text => Raises (invalid_key type_text)
  end.

End WithClient.

Arguments Response W : clear implicits.
Arguments Minio W WriteResult Buckets Objects : clear implicits.
Arguments Direct {A} step.
Arguments Pooled {A} jobs.
Arguments Raises {A} e.

End Storage.

(** ** Sequences of hits, and what a history says about the flag *)

(** Hits recorded one after the other: each with its time and its optional
    size argument. *)
Definition hits (calls : list (datetime * option Z)) (s : CacheStats.t) : CacheStats.t :=
  fold_left (fun s call => snd (CacheStats.hit (fst call) (snd call) s)) calls s.

(** The size arguments of a sequence of hits that [if size:] lets through. *)
Definition taken_sizes (calls : list (datetime * option Z)) : list Z :=
  omap (fun call : datetime * option Z =>
          match snd call with
          | Some v => if truthy_int v then Some v else None
          | None => None
          end) calls.

(** The latest [start()] or [stop()] of a history: [Some true] for a
    start, [Some false] for a stop, [None] when there was neither. *)
Definition last_transition {T : Type} (ops : list (History.op T)) : option bool :=
  fold_left (fun acc o =>
               match o with
               | History.Start _ => Some true
               | History.Stop => Some false
               | _ => acc
               end) ops None.

(** A history in which the owner never writes [cells]. *)
Definition never_filled {T : Type} (ops : list (History.op T)) : Prop :=
  Forall (fun o => match o with History.Fill _ _ => False | _ => True end) ops.

(** The two task handles of a manager go together: both absent, or both
    present, each wrapping its own coroutine. *)
Definition tasks_in_step {T : Type} (m : MemoryManager.t T) : Prop :=
  (MemoryManager._periodic_task m = None /\ MemoryManager._forced_task m = None) \/
  (exists sp sf : MemoryManager.task_state,
      MemoryManager._periodic_task m
      = Some (MemoryManager.mkTask MemoryManager._periodic_rerank sp) /\
      MemoryManager._forced_task m
      = Some (MemoryManager.mkTask MemoryManager._forced_rerank sf)).

(** A client for the examples: the remote state is the list of the calls
    received, each with its arguments; every object holds the bytes [abc],
    but the object ["missing"] does not exist. *)
Definition recorded : Type := list (string * list string).

Definition sample_response : Storage.Response recorded :=
  Storage.mkResponse
    (fun w => (inl abc, w ++ [("data", [])]))
    true
    (fun w => (inl tt, w ++ [("close", [])]))
    (fun w => (inl tt, w ++ [("release_conn", [])])).

Definition sample_minio : Storage.Minio recorded (list string) unit unit :=
  Storage.mkMinio
    (fun w => (inl tt, w ++ [("list_buckets", [])]))
    (fun b o w =>
       (if String.eqb o "missing"
        then inr (Storage.mkClientError true "NoSuchKey")
        else inl sample_response,
        w ++ [("get_object", [b; o])]))
    (fun b p w => (inl tt, w ++ [("list_objects", [b; p])]))
    (fun b o f w => (inl [b; o; f], w ++ [("fput_object", [b; o; f])]))
    (fun b o w => (inl tt, w ++ [("remove_object", [b; o])]))
    (fun b w => (inl tt, w ++ [("remove_bucket", [b])]))
    (fun b w => (inl tt, w ++ [("make_bucket", [b])])).

Definition sample_new_client (endpoint access_key secret_key : string)
  : Storage.Minio recorded (list string) unit unit + Storage.client_error :=
  inl sample_minio.

Definition sample_storage : Storage.t := Storage.__init__ "localhost:9000" "user" "secret".

(** * Properties *)

Import CacheStats.

(** ** The divisors of [score] *)

Lemma recency_divisor (d : timedelta) :
  (1 + total_seconds d / 3600 == inject_Z (d + 3600000000) / inject_Z 3600000000)%Q.
Proof.
  unfold total_seconds. rewrite inject_Z_plus. field.
Qed.

Lemma size_divisor (n : Z) :
  (1 + inject_Z n / inject_Z (1024 * 1024) == inject_Z (n + 1048576) / inject_Z 1048576)%Q.
Proof.
  rewrite inject_Z_plus. change (1024 * 1024) with 1048576. field.
Qed.

Lemma ratio_zero (n d : Z) : 0 < d -> (inject_Z n / inject_Z d == 0)%Q <-> n = 0.
Proof.
  intros Hd. unfold Qeq, Qdiv, Qmult, Qinv, inject_Z. simpl.
  destruct d as [|p|p]; try lia. simpl. lia.
Qed.

Lemma ratio_pos (n d : Z) : 0 < d -> (0 < inject_Z n / inject_Z d)%Q <-> 0 < n.
Proof.
  intros Hd. unfold Qlt, Qdiv, Qmult, Qinv, inject_Z. simpl.
  destruct d as [|p|p]; try lia. simpl. lia.
Qed.

Lemma recency_divisor_nonzero (d : timedelta) :
  d <> -3600000000 -> Qeq_bool (1 + total_seconds d / 3600) 0 = false.
Proof.
  intros Hd. destruct (Qeq_bool _ 0) eqn:E; [|reflexivity].
  apply Qeq_bool_eq in E. rewrite recency_divisor in E.
  apply ratio_zero in E; lia.
Qed.

Lemma size_divisor_nonzero (n : Z) :
  n <> -1048576 -> Qeq_bool (1 + inject_Z n / inject_Z (1024 * 1024)) 0 = false.
Proof.
  intros Hn. destruct (Qeq_bool _ 0) eqn:E; [|reflexivity].
  apply Qeq_bool_eq in E. rewrite size_divisor in E.
  apply ratio_zero in E; lia.
Qed.

(** ** [CacheStats.score] and [CacheStats.hit], step by step *)

(** With both divisors non-zero the property returns, having refreshed the
    three cached attributes and nothing else. *)
Lemma score_returns (s : CacheStats.t) (now : datetime) :
  now - last_hit s <> -3600000000 ->
  size s <> -1048576 ->
  score now s =
  (Return (score_at now s),
   CacheStats.mk (hit_count s) (last_hit s) (size s)
     (recency_at now s) (size_factor_of s) (score_at now s)).
Proof.
  intros Hd Hn.
  unfold score, mbind, M_bind, getattr, setattr, truediv. cbn.
  rewrite (recency_divisor_nonzero _ Hd). cbn.
  rewrite (size_divisor_nonzero _ Hn). reflexivity.
Qed.

(** One hour before [last_hit] the first division is by zero: nothing has
    been assigned yet. *)
Lemma score_raises_on_recency (s : CacheStats.t) (now : datetime) :
  now - last_hit s = -3600000000 ->
  score now s = (Raise ZeroDivisionError, s).
Proof.
  intros Hd. unfold score, mbind, M_bind, getattr, setattr, truediv. cbn.
  rewrite Hd. reflexivity.
Qed.

(** A size of [-2^20] makes the second division fail, after [recency] was
    assigned. *)
Lemma score_raises_on_size (s : CacheStats.t) (now : datetime) :
  now - last_hit s <> -3600000000 ->
  size s = -1048576 ->
  score now s = (Raise ZeroDivisionError, set_recency (recency_at now s) s).
Proof.
  intros Hd Hn. unfold score, mbind, M_bind, getattr, setattr, truediv. cbn.
  rewrite (recency_divisor_nonzero _ Hd). cbn. rewrite Hn. reflexivity.
Qed.

(** [hit] always returns; the size is overwritten by a non-zero argument
    only. *)
Lemma hit_returns (s : CacheStats.t) (now : datetime) (arg : option Z) :
  hit now arg s =
  (Return tt,
   CacheStats.mk (hit_count s + 1) now
     (match arg with
      | Some v => if v =? 0 then size s else v
      | None => size s
      end)
     (recency s) (size_factor s) (_score s)).
Proof.
  unfold hit, mbind, M_bind, getattr, setattr, truthy_int. cbn.
  destruct arg as [v|]; [|reflexivity].
  destruct (v =? 0); reflexivity.
Qed.

(** The code's value and the specification's formula agree. *)
Lemma score_at_spec (s : CacheStats.t) (now : datetime) :
  (score_at now s == score_spec (hit_count s) (hours_since (last_hit s) now) (size s))%Q.
Proof.
  unfold score_at, recency_at, size_factor_of, score_spec, hours_since, total_seconds.
  set (lh := last_hit s).
  assert (E : (inject_Z (now - lh)%Z / inject_Z 1000000 / 3600
               == inject_Z (now - lh)%Z / inject_Z 3600000000)%Q) by field.
  rewrite E. change (2 ^ 20) with (1024 * 1024). 
  assert (H5 : ((5 # 10) == (1 # 2))%Q) by reflexivity.
  rewrite H5. reflexivity.
Qed.

(** Recency falls as the evaluation moves away from the last hit. *)
Lemma recency_antitone (s s' : CacheStats.t) (t t' : datetime) :
  -3600000000 < t - last_hit s -> t - last_hit s <= t' - last_hit s' ->
  (recency_at t' s' <= recency_at t s)%Q.
Proof.
  unfold recency_at.
  generalize (t - last_hit s) (t' - last_hit s'). intros d1 d2 H1 H12.
  assert (P1 : (0 < 1 + total_seconds d1 / 3600)%Q).
  { rewrite recency_divisor. apply ratio_pos; lia. }
  assert (P2 : (0 < 1 + total_seconds d2 / 3600)%Q).
  { rewrite recency_divisor. apply ratio_pos; lia. }
  assert (L : (1 + total_seconds d1 / 3600 <= 1 + total_seconds d2 / 3600)%Q).
  { rewrite !recency_divisor.
    unfold Qle, Qdiv, Qmult, Qinv, inject_Z. simpl. lia. }
  unfold Qdiv. rewrite !Qmult_1_l.
  destruct (Qle_lt_or_eq _ _ L) as [Lt|Eq].
  - apply Qlt_le_weak. apply -> Qinv_lt_contravar; assumption.
  - rewrite Eq. apply Qle_refl.
Qed.

(** A hit raises the score read at any later time: the count term grows by
    a half and recency cannot fall. *)
Lemma hit_raises_score (s : CacheStats.t) (now t : datetime) :
  last_hit s <= now -> now <= t -> size s <> -1048576 ->
  exists v s1 s2 v' s3,
    score t s = (Return v, s1) /\
    hit now None s = (Return tt, s2) /\
    score t s2 = (Return v', s3) /\
    (v < v')%Q.
Proof.
  intros Hlh Hnow Hsz.
  do 5 eexists.
  split; [apply score_returns; lia|].
  split; [apply hit_returns|].
  split; [apply score_returns; simpl; lia|].
  match goal with |- (score_at t s < score_at t ?s2)%Q => set (s' := s2) end.
  pose proof (recency_antitone s' s t t) as R.
  unfold score_at. change (size_factor_of s') with (size_factor_of s).
  change (hit_count s') with (hit_count s + 1). rewrite inject_Z_plus.
  change (inject_Z 1) with 1%Q.
  assert (R' : (recency_at t s <= recency_at t s')%Q) by (apply R; simpl; lia).
  lra.
Qed.

(** ** Claims on [CacheStats] *)

(** C1. Reading [score] at time [now] returns
    [0.5*hit_count + 0.3/(1 + h) + 0.2/(1 + size/2^20)], [h] being the hours
    from [last_hit] to [now], whatever the cached attributes held; the
    read leaves [hit_count], [last_hit] and [size] as they were, so that a
    later read at [now'] returns the formula at [now'] and not the value
    cached by this one.  The formula is defined when neither divisor is
    zero. *)
Theorem C1_score_recomputed_from_current_time
    (s : CacheStats.t) (now now' : datetime) :
  now - last_hit s <> -3600000000 ->
  now' - last_hit s <> -3600000000 ->
  size s <> -1048576 ->
  exists v s1 v' s2,
    score now s = (Return v, s1) /\
    (v == score_spec (hit_count s) (hours_since (last_hit s) now) (size s))%Q /\
    hit_count s1 = hit_count s /\ last_hit s1 = last_hit s /\ size s1 = size s /\
    score now' s1 = (Return v', s2) /\
    (v' == score_spec (hit_count s) (hours_since (last_hit s) now') (size s))%Q.
Proof.
  intros Hd Hd' Hn.
  do 4 eexists.
  split; [apply score_returns; assumption|].
  split; [apply score_at_spec|].
  do 3 (split; [reflexivity|]).
  split; [apply score_returns; assumption|].
  rewrite score_at_spec. reflexivity.
Qed.

Lemma C1_score_recomputed_from_current_time_witness :
  exists v s1 v' s2,
    score 1800000000 sample_stats = (Return v, s1) /\
    (v == score_spec 0%Z (hours_since 0%Z 1800000000%Z) 5%Z)%Q /\
    hit_count s1 = 0 /\ last_hit s1 = 0 /\ size s1 = 5 /\
    score 3600000000 s1 = (Return v', s2) /\
    (v' == score_spec 0%Z (hours_since 0%Z 3600000000%Z) 5%Z)%Q.
Proof.
  apply (C1_score_recomputed_from_current_time sample_stats 1800000000 3600000000);
    simpl; lia.
Defined.

(** C3. Without a hit in between, a score read at [t2] is at most the score
    read at [t1], for [last_hit <= t1 <= t2]: the second read runs on the
    statistics as the first one left them. *)
Theorem C3_idle_score_non_increasing (s : CacheStats.t) (t1 t2 : datetime) :
  last_hit s <= t1 -> t1 <= t2 -> size s <> -1048576 ->
  exists v1 s1 v2 s2,
    score t1 s = (Return v1, s1) /\
    score t2 s1 = (Return v2, s2) /\
    (v2 <= v1)%Q.
Proof.
  intros H1 H12 Hn.
  do 4 eexists.
  split; [apply score_returns; lia|].
  split; [apply score_returns; simpl; lia|].
  match goal with |- (score_at t2 ?s1 <= _)%Q => set (s' := s1) end.
  assert (R : (recency_at t2 s' <= recency_at t1 s)%Q)
    by (apply recency_antitone; simpl; lia).
  unfold score_at. change (size_factor_of s') with (size_factor_of s).
  change (hit_count s') with (hit_count s).
  lra.
Qed.

Lemma C3_idle_score_non_increasing_witness :
  exists v1 s1 v2 s2,
    score 1800000000 sample_stats = (Return v1, s1) /\
    score 3600000000 s1 = (Return v2, s2) /\
    (v2 <= v1)%Q.
Proof.
  apply (C3_idle_score_non_increasing sample_stats 1800000000 3600000000);
    simpl; lia.
Defined.

(** C5. [hit(0)] on statistics whose size is 5 leaves the size at 5: the
    test [if size:] takes an argument of zero for an absent one.  The
    count and the time of the last hit are updated all the same. *)
Theorem C5_hit_with_size_zero_keeps_old_size :
  hit 7 (Some 0) sample_stats =
  (Return tt, CacheStats.mk 1 7 5 1 1 (1 # 2)).
Proof. reflexivity. Qed.

(** ** [__getitem__] of the three tier managers *)

Section GetItem.
Context {T : Type}.
Implicit Types (m : TierManager.t T) (key : string) (cell : T).

Lemma getitem_absent m key :
  TierManager.cells m !! key = None ->
  TierManager.__getitem__ key m = (Raise (KeyError key), m).
Proof.
  intros E. unfold TierManager.__getitem__, mbind, M_bind, getattr. cbn.
  rewrite E. reflexivity.
Qed.

Lemma getitem_present m key cell :
  TierManager.cells m !! key = Some cell ->
  TierManager.__getitem__ key m = (Return cell, m).
Proof.
  intros E. unfold TierManager.__getitem__, mbind, M_bind, getattr. cbn.
  rewrite E. reflexivity.
Qed.

(** Looking a key up never changes the manager. *)
Lemma getitem_state m key : snd (TierManager.__getitem__ key m) = m.
Proof.
  destruct (TierManager.cells m !! key) as [cell|] eqn:E.
  - rewrite (getitem_present _ _ _ E). reflexivity.
  - rewrite (getitem_absent _ _ E). reflexivity.
Qed.

End GetItem.

(** C2 (as the code has it). In each of the three tiers, [get(key)] on an
    absent key raises the key error and leaves the manager as it was; on a
    present key it returns the stored cell and again leaves the manager,
    and with it the statistics of the cell, as it was: no hit is
    recorded. *)
Theorem C2_get_returns_cell_without_recording_hit (key : string) :
  (forall (m : RAMManager.t),
      (TierManager.cells m !! key = None ->
       RAMManager.__getitem__ key m = (Raise (KeyError key), m)) /\
      (forall cell, TierManager.cells m !! key = Some cell ->
       RAMManager.__getitem__ key m = (Return cell, m))) /\
  (forall (m : DiskManager.t),
      (TierManager.cells m !! key = None ->
       DiskManager.__getitem__ key m = (Raise (KeyError key), m)) /\
      (forall cell, TierManager.cells m !! key = Some cell ->
       DiskManager.__getitem__ key m = (Return cell, m))) /\
  (forall (m : CloudManager.t),
      (TierManager.cells m !! key = None ->
       CloudManager.__getitem__ key m = (Raise (KeyError key), m)) /\
      (forall cell, TierManager.cells m !! key = Some cell ->
       CloudManager.__getitem__ key m = (Return cell, m))).
Proof.
  repeat split; intros;
    (apply getitem_absent || apply getitem_present); assumption.
Qed.

Lemma C2_get_returns_cell_without_recording_hit_witness :
  RAMManager.__getitem__ "a" sample_ram = (Return sample_ram_cell, sample_ram) /\
  RAMManager.__getitem__ "b" sample_ram = (Raise (KeyError "b"), sample_ram).
Proof.
  destruct (C2_get_returns_cell_without_recording_hit "a") as [Ha _].
  destruct (C2_get_returns_cell_without_recording_hit "b") as [Hb _].
  split.
  - apply (proj2 (Ha sample_ram)). vm_compute. reflexivity.
  - apply (proj1 (Hb sample_ram)). vm_compute. reflexivity.
Defined.

(** C2, the claim as stated fails: the cell stored under ["a"] has no hit
    before [get("a")], and what the call returns and what the manager
    holds afterwards still has none. *)
Lemma C2_get_records_no_hit :
  TierManager.cells sample_ram !! "a" = Some sample_ram_cell /\
  ~ (exists cell m',
        RAMManager.__getitem__ "a" sample_ram = (Return cell, m') /\
        hit_count (MemoryCell.stats cell)
        = hit_count (MemoryCell.stats sample_ram_cell) + 1).
Proof.
  split; [vm_compute; reflexivity|].
  intros (cell & m' & Hget & Hhit). unfold RAMManager.__getitem__ in Hget.
  rewrite (getitem_present sample_ram "a" sample_ram_cell) in Hget
    by (vm_compute; reflexivity).
  injection Hget as <- _. vm_compute in Hhit. discriminate.
Qed.

(** C4 (as the code has it). In each of the three tiers, [get(key)] on a
    present key hands back the stored cell and leaves the manager as it
    was, so the score of the cell read at any time is what it would have
    been without the call.  What raises the score is a recorded hit: with
    [last_hit <= now <= t], the score read at [t] after [hit()] at [now] is
    strictly above the score read at [t] without it. *)
Theorem C4_get_keeps_score_and_hit_raises_it (key : string) (t : datetime) :
  (forall (m : RAMManager.t) cell,
      TierManager.cells m !! key = Some cell ->
      exists cell' m',
        RAMManager.__getitem__ key m = (Return cell', m') /\
        TierManager.cells m' !! key = Some cell' /\
        score t (MemoryCell.stats cell') = score t (MemoryCell.stats cell)) /\
  (forall (m : DiskManager.t) cell,
      TierManager.cells m !! key = Some cell ->
      exists cell' m',
        DiskManager.__getitem__ key m = (Return cell', m') /\
        TierManager.cells m' !! key = Some cell' /\
        score t (MemoryCell.stats cell') = score t (MemoryCell.stats cell)) /\
  (forall (m : CloudManager.t) cell,
      TierManager.cells m !! key = Some cell ->
      exists cell' m',
        CloudManager.__getitem__ key m = (Return cell', m') /\
        TierManager.cells m' !! key = Some cell' /\
        score t (CloudCell.stats cell') = score t (CloudCell.stats cell)) /\
  (forall (s : CacheStats.t) (now : datetime),
      last_hit s <= now -> now <= t -> size s <> -1048576 ->
      exists v s1 s2 v' s3,
        score t s = (Return v, s1) /\
        hit now None s = (Return tt, s2) /\
        score t s2 = (Return v', s3) /\
        (v < v')%Q).
Proof.
  repeat split.
  1-3: intros m cell E; exists cell, m;
       split; [apply getitem_present; assumption | split; [assumption | reflexivity]].
  intros s now. apply hit_raises_score.
Qed.

Lemma C4_get_keeps_score_and_hit_raises_it_witness :
  (exists cell' m',
      RAMManager.__getitem__ "a" sample_ram = (Return cell', m') /\
      TierManager.cells m' !! "a" = Some cell' /\
      score 3600000000 (MemoryCell.stats cell')
      = score 3600000000 (MemoryCell.stats sample_ram_cell)) /\
  (exists v s1 s2 v' s3,
      score 3600000000 sample_stats = (Return v, s1) /\
      hit 1800000000 None sample_stats = (Return tt, s2) /\
      score 3600000000 s2 = (Return v', s3) /\
      (v < v')%Q).
Proof.
  destruct (C4_get_keeps_score_and_hit_raises_it "a" 3600000000)
    as (Hram & _ & _ & Hhit).
  split.
  - apply (Hram sample_ram sample_ram_cell). vm_compute. reflexivity.
  - apply (Hhit sample_stats 1800000000); simpl; lia.
Defined.

(** C4, the claim as stated fails: the score of the cell under ["a"], read
    one hour after its construction, is the same after [get("a")] as
    before, not strictly above. *)
Lemma C4_get_does_not_raise_score :
  exists cell' m' v v',
    RAMManager.__getitem__ "a" sample_ram = (Return cell', m') /\
    fst (score 3600000000 (MemoryCell.stats sample_ram_cell)) = Return v /\
    fst (score 3600000000 (MemoryCell.stats cell')) = Return v' /\
    ~ (v < v')%Q.
Proof.
  exists sample_ram_cell, sample_ram. do 2 eexists.
  split; [apply getitem_present; vm_compute; reflexivity|].
  split; [vm_compute; reflexivity|].
  split; [vm_compute; reflexivity|].
  apply Qlt_irrefl.
Qed.

(** ** [CloudCell] *)

Import CloudCell.

(** Whatever the call resolves to, [__get__] returns [None] and leaves the
    cell unchanged. *)
Lemma cloud_get_returns_none (c : CloudCell.t) (f : pyval -> result pyval) (v : pyval) :
  call_fn c = Callable f ->
  f (entity c) = Return v ->
  __get__ c = (Return PyNone, c).
Proof.
  intros Hfn Hv. unfold __get__, mbind, M_bind, getattr, await_call, lift. cbn.
  rewrite Hfn. fold (entity c). rewrite Hv. reflexivity.
Qed.

(** An exception of the call passes through. *)
Lemma cloud_get_raises (c : CloudCell.t) (f : pyval -> result pyval) (e : exn) :
  call_fn c = Callable f ->
  f (entity c) = Raise e ->
  __get__ c = (Raise e, c).
Proof.
  intros Hfn Hv. unfold __get__, mbind, M_bind, getattr, await_call, lift. cbn.
  rewrite Hfn. fold (entity c). rewrite Hv. reflexivity.
Qed.

(** A read never changes the cell. *)
Lemma cloud_get_state (c : CloudCell.t) : snd (__get__ c) = c.
Proof.
  unfold __get__, mbind, M_bind, getattr, await_call, lift, raise. cbn.
  destruct (call_fn c) as [f|o]; [|reflexivity].
  destruct (f _); reflexivity.
Qed.

Lemma cloud_sizeof_eval (c : CloudCell.t) :
  __sizeof__ c = (if truthy (entity c) then len (entity c) else Return 0, c).
Proof.
  unfold __sizeof__, mbind, M_bind, getattr, lift. cbn. fold (entity c).
  destruct (truthy (entity c)); reflexivity.
Qed.

(** C6. A cell whose remote call resolves to the three bytes [abc]: reading
    it returns [None], not the bytes. *)
Theorem C6_cloud_read_returns_none :
  await_call (call_fn sample_cloud_cell) (entity sample_cloud_cell) sample_cloud_cell
  = (Return (PyBytes abc), sample_cloud_cell) /\
  __get__ sample_cloud_cell = (Return PyNone, sample_cloud_cell).
Proof. split; reflexivity. Qed.

(** C7 (as the code has it). [__sizeof__] measures the payload the cell
    stores, not what the call resolved to: it returns [len(entity)] for a
    payload that is true in a condition and 0 otherwise.  For the stored
    pair of arguments that is 2, for bytes written into the cell their
    count, for [None] it is 0; a read does not change it. *)
Theorem C7_cloud_sizeof_is_len_of_payload (c : CloudCell.t) :
  (truthy (entity c) = true -> __sizeof__ c = (len (entity c), c)) /\
  (truthy (entity c) = false -> __sizeof__ c = (Return 0, c)) /\
  (forall args kwargs,
      entity c = PyTuple [args; kwargs] -> __sizeof__ c = (Return 2, c)) /\
  (forall b,
      entity c = PyBytes b -> __sizeof__ c = (Return (Z.of_nat (length b)), c)) /\
  (entity c = PyNone -> __sizeof__ c = (Return 0, c)) /\
  __sizeof__ (snd (__get__ c)) = __sizeof__ c.
Proof.
  rewrite cloud_get_state, cloud_sizeof_eval.
  repeat split.
  - intros ->. reflexivity.
  - intros ->. reflexivity.
  - intros args kwargs ->. reflexivity.
  - intros b ->. cbn. destruct b; reflexivity.
  - intros ->. reflexivity.
Qed.

Lemma C7_cloud_sizeof_is_len_of_payload_witness :
  __sizeof__ sample_cloud_cell = (Return 2, sample_cloud_cell) /\
  __sizeof__ (snd (__set__ (PyBytes abc) sample_cloud_cell))
  = (Return 3, snd (__set__ (PyBytes abc) sample_cloud_cell)) /\
  __sizeof__ (snd (__del__ sample_cloud_cell))
  = (Return 0, snd (__del__ sample_cloud_cell)).
Proof.
  split; [|split].
  - apply (proj1 (proj2 (proj2 (C7_cloud_sizeof_is_len_of_payload sample_cloud_cell)))
             (PyList []) (PyDict [])).
    reflexivity.
  - apply (proj1 (proj2 (proj2 (proj2
             (C7_cloud_sizeof_is_len_of_payload
                (snd (__set__ (PyBytes abc) sample_cloud_cell)))))) abc).
    reflexivity.
  - apply (proj1 (proj2 (proj2 (proj2 (proj2
             (C7_cloud_sizeof_is_len_of_payload (snd (__del__ sample_cloud_cell)))))))).
    reflexivity.
Defined.

(** C7, the claim as stated fails: a cell that was never read, so whose
    call is unresolved, has size 2 and not 0; and once a read has resolved
    the call to three bytes its size is still 2 and not 3. *)
Lemma C7_cloud_sizeof_ignores_resolution :
  fst (__sizeof__ sample_cloud_cell) = Return 2 /\
  fst (__sizeof__ sample_cloud_cell) <> Return 0 /\
  await_call (call_fn sample_cloud_cell) (entity sample_cloud_cell) sample_cloud_cell
  = (Return (PyBytes abc), sample_cloud_cell) /\
  len (PyBytes abc) = Return 3 /\
  fst (__sizeof__ (snd (__get__ sample_cloud_cell))) <> Return 3.
Proof.
  repeat split; try reflexivity; vm_compute; discriminate.
Qed.

(** ** The life cycle of a manager *)

Import MemoryManager.

Section LifeCycle.
Context {T : Type}.
Implicit Types (m : MemoryManager.t T) (tm : TierManager.t T).

(** [stop] always returns: the flag and the event are lowered and
    [cancel()] is called on each task that exists. *)
Lemma stop_returns m :
  stop m =
  (Return tt,
   MemoryManager.mk (_capacity m) (_cells m) (_size m) false false
     (cancel <$> _periodic_task m) (cancel <$> _forced_task m)).
Proof.
  destruct m as [c d n ev r [p|] [f|]]; reflexivity.
Qed.

(** Inside an event loop [start] returns with the flag raised and two
    fresh tasks. *)
Lemma start_returns m :
  start true m =
  (Return tt,
   MemoryManager.mk (_capacity m) (_cells m) (_size m) (_rerank_event m) true
     (Some (mkTask _periodic_rerank (Pending 0)))
     (Some (mkTask _forced_rerank (Pending 0)))).
Proof. reflexivity. Qed.

(** Outside an event loop the first [create_task] raises, after the flag
    was raised. *)
Lemma start_raises m :
  start false m = (Raise RuntimeError, set__running true m).
Proof. reflexivity. Qed.








Lemma capacity_step tm (o : History.op T) :
  TierManager.capacity (History.step tm o) = TierManager.capacity tm.
Proof.
  destruct o as [loop| |key| | | |key cell|c]; cbn; try reflexivity.
  - unfold TierManager.start, TierManager.inherited.
    destruct loop; [rewrite start_returns | rewrite start_raises]; reflexivity.
  - unfold TierManager.stop, TierManager.inherited. rewrite stop_returns.
    reflexivity.
  - rewrite getitem_state. reflexivity.
  - destruct c; reflexivity.
Qed.

Lemma capacity_run (ops : list (History.op T)) tm :
  TierManager.capacity (History.run ops tm) = TierManager.capacity tm.
Proof.
  revert tm. induction ops as [|o ops IH]; intros tm; [reflexivity|].
  change (History.run (o :: ops) tm) with (History.run ops (History.step tm o)).
  rewrite IH. apply capacity_step.
Qed.

(** A manager that was constructed is the one the assignments of the
    constructor leave, of a class without open abstract methods. *)
Lemma new_returns (open_methods : list string) (logged : result unit)
    (capacity : Z) tm :
  TierManager.new open_methods logged capacity = Return tm ->
  open_methods = [] /\ tm = TierManager.__init__ capacity.
Proof.
  unfold TierManager.new, instantiate, TierManager.construct, MemoryManager.construct.
  destruct open_methods; [|discriminate].
  destruct logged; [|discriminate].
  intros E. injection E as <-. split; reflexivity.
Qed.

End LifeCycle.

(** C8 (as the code has it). A manager can only be an instance of a
    subclass that completes the abstract methods: the three tier classes
    themselves refuse instantiation.  Such a manager leaves its
    constructor with the flag [_running] already up and without any task.
    In any state [start()] leaves the flag up, also when it fails for want
    of an event loop, [stop()] leaves it down, and a lookup does not touch
    it: before [start()] is first called the manager is flagged running,
    unless [stop()] was called. *)
Theorem C8_flag_is_up_from_construction {T : Type}
    (open_methods : list string) (logged : result unit) (capacity : Z)
    (tm : TierManager.t T) (loop : bool) (key : string) :
  (TierManager.new open_methods logged capacity = Return tm ->
   _running (TierManager.super tm) = true /\
   _periodic_task (TierManager.super tm) = None /\
   _forced_task (TierManager.super tm) = None) /\
  (RAMManager.new MemoryManager.open_methods logged capacity = Raise TypeError /\
   DiskManager.new MemoryManager.open_methods logged capacity = Raise TypeError /\
   CloudManager.new MemoryManager.open_methods logged capacity = Raise TypeError) /\
  _running (TierManager.super (snd (TierManager.start loop tm))) = true /\
  _running (TierManager.super (snd (TierManager.stop tm))) = false /\
  TierManager.super (snd (TierManager.__getitem__ key tm)) = TierManager.super tm.
Proof.
  split; [|split; [repeat split|]].
  - intros E. apply new_returns in E as [_ ->]. repeat split.
  - split; [|split].
    + unfold TierManager.start, TierManager.inherited.
      destruct loop; [rewrite start_returns | rewrite start_raises]; reflexivity.
    + unfold TierManager.stop, TierManager.inherited. rewrite stop_returns.
      reflexivity.
    + rewrite getitem_state. reflexivity.
Qed.

Lemma C8_flag_is_up_from_construction_witness :
  TierManager.new (T := RAMCell.t) [] (Return tt) 1024
  = Return (TierManager.__init__ 1024) /\
  _running (TierManager.super (TierManager.__init__ (T := RAMCell.t) 1024)) = true /\
  _periodic_task (TierManager.super (TierManager.__init__ (T := RAMCell.t) 1024)) = None /\
  _forced_task (TierManager.super (TierManager.__init__ (T := RAMCell.t) 1024)) = None.
Proof.
  split; [reflexivity|].
  apply (proj1 (C8_flag_is_up_from_construction (T := RAMCell.t) [] (Return tt) 1024
                  (TierManager.__init__ 1024) true "a")).
  reflexivity.
Defined.

(** C8, the claim as stated fails: a manager of a subclass of
    [RAMManager] that completes the abstract methods, built with capacity
    1024 where the constructor after [LoggedObject] returns, comes out of
    its constructor flagged running, before any [start()]. *)
Lemma C8_fresh_manager_is_flagged_running :
  exists tm : RAMManager.t,
    RAMManager.new [] (Return tt) 1024 = Return tm /\
    _running (TierManager.super tm) <> false.
Proof.
  eexists. split; [reflexivity|]. cbn. discriminate.
Qed.




(** C10. In every state [used + free = capacity], and along every history
    from the constructor the capacity stays the one given to it. *)
Theorem C10_used_plus_free_is_capacity {T : Type}
    (m : MemoryManager.t T) (capacity : Z) (ops : list (History.op T)) :
  used m + free m = MemoryManager.capacity m /\
  (let tm := History.run ops (TierManager.__init__ capacity) in
   TierManager.used tm + TierManager.free tm = TierManager.capacity tm /\
   TierManager.capacity tm = capacity).
Proof.
  split; [unfold used, free, MemoryManager.capacity; lia|].
  cbv zeta. split.
  - unfold TierManager.used, TierManager.free, TierManager.capacity,
      used, free, MemoryManager.capacity. lia.
  - rewrite capacity_run. reflexivity.
Qed.

(** * Further properties of the code

    The cell and manager classes leave abstract methods of their bases
    unimplemented ([morph], [promote_request], ...), so their objects are
    those of subclasses that complete them; the constructors and methods
    studied here are the ones such subclasses inherit. *)

(** ** [CacheStats]: bounds and orderings of the score *)

Lemma unit_fraction_bounds (D : Q) : (1 <= D)%Q -> (0 < 1 / D)%Q /\ (1 / D <= 1)%Q.
Proof.
  intros H. assert (P : (0 < D)%Q) by lra. split.
  - apply Qlt_shift_div_l; lra.
  - apply Qle_shift_div_r; lra.
Qed.

Lemma ratio_ge_1 (n d : Z) : 0 < d -> d <= n -> (1 <= inject_Z n / inject_Z d)%Q.
Proof.
  intros Hd Hn. apply Qle_shift_div_l.
  - change 0%Q with (inject_Z 0). rewrite <- Zlt_Qlt. exact Hd.
  - rewrite Qmult_1_l, <- Zle_Qle. exact Hn.
Qed.

Lemma recency_bounds (s : CacheStats.t) (now : datetime) :
  last_hit s <= now -> (0 < recency_at now s)%Q /\ (recency_at now s <= 1)%Q.
Proof.
  intros H. unfold recency_at. apply unit_fraction_bounds.
  rewrite recency_divisor. apply ratio_ge_1; lia.
Qed.

Lemma size_factor_bounds (s : CacheStats.t) :
  0 <= size s -> (0 < size_factor_of s)%Q /\ (size_factor_of s <= 1)%Q.
Proof.
  intros H. unfold size_factor_of. apply unit_fraction_bounds.
  rewrite size_divisor. apply ratio_ge_1; lia.
Qed.

Lemma size_factor_antitone (a b : CacheStats.t) :
  0 <= size a -> size a <= size b -> (size_factor_of b <= size_factor_of a)%Q.
Proof.
  intros Ha Hab. unfold size_factor_of.
  assert (Pa : (1 <= 1 + inject_Z (size a) / inject_Z (1024 * 1024))%Q)
    by (rewrite size_divisor; apply ratio_ge_1; lia).
  assert (L : (1 + inject_Z (size a) / inject_Z (1024 * 1024)
               <= 1 + inject_Z (size b) / inject_Z (1024 * 1024))%Q).
  { rewrite !size_divisor. unfold Qle, Qdiv, Qmult, Qinv, inject_Z. simpl. lia. }
  set (Da := (1 + inject_Z (size a) / inject_Z (1024 * 1024))%Q) in *.
  set (Db := (1 + inject_Z (size b) / inject_Z (1024 * 1024))%Q) in *.
  apply Qle_shift_div_r; [lra|].
  assert (E : (1 / Da * Db == Db / Da)%Q) by (field; lra).
  rewrite E. apply Qle_shift_div_l; lra.
Qed.

(** X1. With a clock that has not run backwards and a non-negative size,
    the score read at [now] lies in the half-open band above half the hit
    count: [0.5*hit_count < score <= 0.5*hit_count + 0.5]. *)
Theorem score_within_half_of_hits (s : CacheStats.t) (now : datetime) :
  last_hit s <= now -> 0 <= size s ->
  exists v s',
    score now s = (Return v, s') /\
    ((1 # 2) * inject_Z (hit_count s) < v)%Q /\
    (v <= (1 # 2) * inject_Z (hit_count s) + (1 # 2))%Q.
Proof.
  intros Ht Hs. do 2 eexists.
  split; [apply score_returns; lia|].
  destruct (recency_bounds s now Ht), (size_factor_bounds s Hs).
  unfold score_at. split; lra.
Qed.

Lemma score_within_half_of_hits_witness :
  exists v s',
    score 3600000000 sample_stats = (Return v, s') /\
    ((1 # 2) * inject_Z (hit_count sample_stats) < v)%Q /\
    (v <= (1 # 2) * inject_Z (hit_count sample_stats) + (1 # 2))%Q.
Proof.
  apply (score_within_half_of_hits sample_stats 3600000000); simpl; lia.
Defined.

(** X2. The hit count decides the order of two scores: statistics with
    fewer hits score strictly lower, whatever the two sizes, the two idle
    times and the two moments of reading. *)
Theorem fewer_hits_lower_score (a b : CacheStats.t) (ta tb : datetime) :
  last_hit a <= ta -> last_hit b <= tb -> 0 <= size a -> 0 <= size b ->
  hit_count a < hit_count b ->
  exists va a' vb b',
    score ta a = (Return va, a') /\
    score tb b = (Return vb, b') /\
    (va < vb)%Q.
Proof.
  intros Hta Htb Hsa Hsb Hlt. do 4 eexists.
  split; [apply score_returns; lia|].
  split; [apply score_returns; lia|].
  destruct (recency_bounds a ta Hta), (size_factor_bounds a Hsa).
  destruct (recency_bounds b tb Htb), (size_factor_bounds b Hsb).
  assert (Hq : (inject_Z (hit_count a) + 1 <= inject_Z (hit_count b))%Q).
  { change 1%Q with (inject_Z 1). rewrite <- inject_Z_plus, <- Zle_Qle. lia. }
  unfold score_at. lra.
Qed.

Lemma fewer_hits_lower_score_witness :
  exists va a' vb b',
    score 7200000000 sample_stats = (Return va, a') /\
    score 7200000000 (snd (hit 1 (Some 4096) sample_stats)) = (Return vb, b') /\
    (va < vb)%Q.
Proof.
  apply (fewer_hits_lower_score sample_stats (snd (hit 1 (Some 4096) sample_stats))
           7200000000 7200000000); simpl; lia.
Defined.

(** X3. Of two statistics with the same hit count and the same last hit,
    read at the same time, the one with the larger size does not score
    higher. *)
Theorem larger_size_no_higher_score (a b : CacheStats.t) (now : datetime) :
  hit_count a = hit_count b -> last_hit a = last_hit b ->
  now - last_hit a <> -3600000000 ->
  0 <= size a -> size a <= size b ->
  exists va a' vb b',
    score now a = (Return va, a') /\
    score now b = (Return vb, b') /\
    (vb <= va)%Q.
Proof.
  intros Hh Hl Hd Ha Hab. do 4 eexists.
  split; [apply score_returns; lia|].
  split; [apply score_returns; [rewrite <- Hl; exact Hd | lia]|].
  pose proof (size_factor_antitone a b Ha Hab).
  unfold score_at, recency_at. rewrite Hh, Hl. lra.
Qed.

Lemma larger_size_no_higher_score_witness :
  exists va a' vb b',
    score 5 sample_stats = (Return va, a') /\
    score 5 (set_size 4096 sample_stats) = (Return vb, b') /\
    (vb <= va)%Q.
Proof.
  apply (larger_size_no_higher_score sample_stats (set_size 4096 sample_stats) 5);
    simpl; (reflexivity || lia).
Defined.

(** ** [CacheStats]: failures, repeated reads, sequences of hits *)

(** X4. Reading the score raises [ZeroDivisionError] exactly when one of
    the two divisors is zero, that is when [now] lies one hour before
    [last_hit] or the size is [-2^20].  In the first case nothing has been
    assigned; in the second [recency] has already been assigned, and
    nothing else. *)
Theorem score_raises_zero_division (s : CacheStats.t) (now : datetime) :
  (fst (score now s) = Raise ZeroDivisionError
   <-> now - last_hit s = -3600000000 \/ size s = -1048576) /\
  (now - last_hit s = -3600000000 -> snd (score now s) = s) /\
  (now - last_hit s <> -3600000000 -> size s = -1048576 ->
   snd (score now s) = set_recency (recency_at now s) s).
Proof.
  split; [|split].
  - destruct (Z.eq_dec (now - last_hit s) (-3600000000)) as [Hd|Hd].
    { rewrite (score_raises_on_recency s now Hd).
      split; [intros _; left; exact Hd | reflexivity]. }
    destruct (Z.eq_dec (size s) (-1048576)) as [Hn|Hn].
    { rewrite (score_raises_on_size s now Hd Hn).
      split; [intros _; right; exact Hn | reflexivity]. }
    rewrite (score_returns s now Hd Hn).
    split; [intros E; discriminate E | intros [E|E]; contradiction].
  - intros Hd. rewrite (score_raises_on_recency s now Hd). reflexivity.
  - intros Hd Hn. rewrite (score_raises_on_size s now Hd Hn). reflexivity.
Qed.

(** X5. A score read again at the same time gives the same outcome and
    leaves the statistics as the first read left them, also when the read
    fails. *)
Theorem score_read_twice (s : CacheStats.t) (now : datetime) :
  score now (snd (score now s)) = score now s.
Proof.
  destruct (Z.eq_dec (now - last_hit s) (-3600000000)) as [Hd|Hd].
  { rewrite (score_raises_on_recency s now Hd). cbn.
    apply score_raises_on_recency, Hd. }
  destruct (Z.eq_dec (size s) (-1048576)) as [Hn|Hn].
  { rewrite (score_raises_on_size s now Hd Hn). cbn.
    rewrite score_raises_on_size by assumption. reflexivity. }
  rewrite (score_returns s now Hd Hn). cbn.
  rewrite score_returns by assumption. reflexivity.
Qed.

Lemma hits_snoc (calls : list (datetime * option Z)) (call : datetime * option Z)
    (s : CacheStats.t) :
  hits (calls ++ [call]) s = snd (hit (fst call) (snd call) (hits calls s)).
Proof. unfold hits. rewrite fold_left_app. reflexivity. Qed.

Lemma taken_sizes_snoc (calls : list (datetime * option Z)) (call : datetime * option Z) :
  taken_sizes (calls ++ [call]) =
  taken_sizes calls ++
  match snd call with
  | Some v => if truthy_int v then [v] else []
  | None => []
  end.
Proof.
  unfold taken_sizes. rewrite omap_app. cbn.
  destruct (snd call) as [v|]; [destruct (truthy_int v)|]; reflexivity.
Qed.

(** X6. After any sequence of hits the count has grown by their number,
    [last_hit] is the time of the latest one, the size is the latest
    non-zero size argument (the old size when there was none), and the
    cached score attributes are as before. *)
Theorem hits_accumulate (calls : list (datetime * option Z)) (s : CacheStats.t) :
  hit_count (hits calls s) = hit_count s + Z.of_nat (length calls) /\
  last_hit (hits calls s) = List.last (map fst calls) (last_hit s) /\
  size (hits calls s) = List.last (taken_sizes calls) (size s) /\
  recency (hits calls s) = recency s /\
  size_factor (hits calls s) = size_factor s /\
  _score (hits calls s) = _score s.
Proof.
  induction calls as [|call calls IH] using rev_ind.
  - cbn. repeat split. lia.
  - destruct IH as (Hc & Hl & Hs & Hr & Hf & Hv).
    rewrite hits_snoc, hit_returns, taken_sizes_snoc, map_app, length_app.
    cbn [snd hit_count last_hit size recency size_factor _score].
    rewrite Hc, Hr, Hf, Hv. repeat split.
    + cbn. lia.
    + cbn. rewrite List.last_last. reflexivity.
    + unfold truthy_int. destruct (snd call) as [v|].
      * destruct (v =? 0); cbn.
        -- rewrite app_nil_r. exact Hs.
        -- rewrite List.last_last. reflexivity.
      * rewrite app_nil_r. exact Hs.
Qed.

(** X7. A hit that also reports a size still raises the score: for
    [last_hit <= now <= t] and non-negative old and new sizes, the score
    read at [t] after [hit(v)] at [now] is strictly above the score read
    at [t] without the hit, however much larger [v] is. *)
Theorem hit_with_size_raises_score (s : CacheStats.t) (now t v : Z) :
  last_hit s <= now -> now <= t -> 0 <= size s -> 0 <= v ->
  exists before s1 s2 after s3,
    score t s = (Return before, s1) /\
    hit now (Some v) s = (Return tt, s2) /\
    score t s2 = (Return after, s3) /\
    (before < after)%Q.
Proof.
  intros Hlh Hnow Hsz Hv. do 5 eexists.
  split; [apply score_returns; lia|].
  split; [apply hit_returns|].
  split; [apply score_returns; cbn; [lia | destruct (v =? 0); lia]|].
  match goal with |- (score_at t s < score_at t ?s2)%Q => set (s' := s2) end.
  assert (R : (recency_at t s' <= recency_at t s')%Q) by apply Qle_refl.
  assert (R' : (recency_at t s <= recency_at t s')%Q)
    by (apply recency_antitone; simpl; lia).
  assert (Hs' : 0 <= size s') by (cbn; destruct (v =? 0); lia).
  destruct (size_factor_bounds s Hsz), (size_factor_bounds s' Hs').
  unfold score_at. change (hit_count s') with (hit_count s + 1).
  rewrite inject_Z_plus. change (inject_Z 1) with 1%Q. lra.
Qed.

Lemma hit_with_size_raises_score_witness :
  exists before s1 s2 after s3,
    score 3600000000 sample_stats = (Return before, s1) /\
    hit 1800000000 (Some 1073741824) sample_stats = (Return tt, s2) /\
    score 3600000000 s2 = (Return after, s3) /\
    (before < after)%Q.
Proof.
  apply (hit_with_size_raises_score sample_stats 1800000000 3600000000 1073741824);
    simpl; lia.
Defined.

(** X8. Read at the very time of construction, the score of
    [CacheStats(size)] is [0.3 + 0.2/(1 + size/2^20)]; it agrees with the
    value [0.5] the constructor put into [_score] only for a size of
    zero. *)
Theorem fresh_score (now : datetime) (n : Z) :
  0 <= n ->
  exists v s',
    score now (CacheStats.__init__ now n) = (Return v, s') /\
    (v == (3 # 10) + (2 # 10) * (1 / (1 + inject_Z n / inject_Z (2 ^ 20))))%Q /\
    ((v == _score (CacheStats.__init__ now n))%Q <-> n = 0).
Proof.
  intros Hn. do 2 eexists.
  split; [apply score_returns; cbn; lia|].
  assert (E : (score_at now (CacheStats.__init__ now n)
               == (3 # 10) + (2 # 10) * (1 / (1 + inject_Z n / inject_Z (2 ^ 20))))%Q).
  { unfold score_at, recency_at, size_factor_of, total_seconds, CacheStats.__init__.
    cbn [hit_count last_hit size]. rewrite Z.sub_diag. change (2 ^ 20) with (1024 * 1024).
    set (f := (1 / (1 + inject_Z n / inject_Z (1024 * 1024)))%Q).
    assert (R : (1 / (1 + inject_Z 0 / inject_Z 1000000 / 3600) == 1)%Q) by reflexivity.
    rewrite R. change (inject_Z 0) with 0%Q. lra. }
  split; [exact E|].
  rewrite E. change (2 ^ 20) with 1048576. unfold CacheStats.__init__. cbn [_score].
  assert (D : (1 + inject_Z n / inject_Z 1048576
               == inject_Z (n + 1048576) / inject_Z 1048576)%Q)
    by (rewrite inject_Z_plus; field).
  rewrite D.
  assert (I : (1 / (inject_Z (n + 1048576) / inject_Z 1048576)
               == inject_Z 1048576 / inject_Z (n + 1048576))%Q).
  { field. intros Z0.
    assert (Z1 : (inject_Z (n + 1048576) == inject_Z 0)%Q) by exact Z0.
    rewrite inject_Z_injective in Z1. lia. }
  rewrite I. split.
  - intros H.
    assert (H1 : (inject_Z 1048576 / inject_Z (n + 1048576) == 1)%Q) by lra.
    unfold Qeq, Qdiv, Qmult, Qinv, inject_Z in H1. cbn in H1.
    destruct (n + 1048576) as [|p|p] eqn:Ep; try lia.
    cbn in H1. lia.
  - intros ->. reflexivity.
Qed.

Lemma fresh_score_witness :
  exists v s',
    score 9 (CacheStats.__init__ 9 0) = (Return v, s') /\
    (v == (3 # 10) + (2 # 10) * (1 / (1 + inject_Z 0 / inject_Z (2 ^ 20))))%Q /\
    ((v == _score (CacheStats.__init__ 9%Z 0%Z))%Q <-> 0 = 0).
Proof. apply (fresh_score 9 0). lia. Defined.

Lemma score_raises_zero_division_witness :
  fst (score (-3600000000) sample_stats) = Raise ZeroDivisionError /\
  snd (score (-3600000000) sample_stats) = sample_stats /\
  snd (score 0 (set_size (-1048576) sample_stats))
  = set_recency (recency_at 0 (set_size (-1048576) sample_stats))
      (set_size (-1048576) sample_stats).
Proof.
  split; [|split].
  - apply (proj1 (score_raises_zero_division sample_stats (-3600000000))).
    left. reflexivity.
  - apply (proj1 (proj2 (score_raises_zero_division sample_stats (-3600000000)))).
    reflexivity.
  - apply (proj2 (proj2 (score_raises_zero_division
                           (set_size (-1048576) sample_stats) 0)));
      [discriminate | reflexivity].
Defined.

(** ** Cells: construction, write, read, delete, size *)



(** X10. A RAM cell returns what was written into it, for any value, and
    its size follows the payload: after a write of bytes it is their
    number, after a delete it is 0 and the cell reads as [None].  Neither
    write nor delete touches the key or the statistics, so the size
    recorded there stays what it was. *)
Theorem ram_write_read_delete (c : RAMCell.t) (value : pyval) (b : list byte) :
  let written := snd (RAMCell.__set__ value c) in
  let bytes := snd (RAMCell.__set__ (PyBytes b) c) in
  let deleted := snd (RAMCell.__del__ written) in
  RAMCell.__get__ written = (Return value, written) /\
  RAMCell.__sizeof__ bytes = (Return (Z.of_nat (length b)), bytes) /\
  RAMCell.__get__ deleted = (Return PyNone, deleted) /\
  RAMCell.__sizeof__ deleted = (Return 0, deleted) /\
  MemoryCell.key written = MemoryCell.key c /\
  MemoryCell.key deleted = MemoryCell.key c /\
  MemoryCell.stats written = MemoryCell.stats c /\
  MemoryCell.stats deleted = MemoryCell.stats c.
Proof.
  repeat split. unfold RAMCell.__sizeof__, mbind, M_bind, getattr, lift. cbn.
  destruct b; reflexivity.
Qed.

Lemma ram_sizeof_eval (r : RAMCell.t) :
  RAMCell.__sizeof__ r
  = (if truthy (MemoryCell.entity r) then len (MemoryCell.entity r) else Return 0, r).
Proof.
  unfold RAMCell.__sizeof__, mbind, M_bind, getattr, lift. cbn.
  destruct (truthy (MemoryCell.entity r)); reflexivity.
Qed.

Lemma guarded_len_nonneg (e : pyval) (k : Z) :
  (if truthy e then len e else Return 0) = Return k -> 0 <= k.
Proof.
  destruct (truthy e); [|intros E; injection E as <-; lia].
  destruct e; cbn; intros E; try discriminate E; injection E as <-; lia.
Qed.

(** X11. An integer payload makes the size of a RAM or cloud cell 0 when
    it is zero and a [TypeError] otherwise ([len] of an [int]), the cell
    being left as it was; and whatever the payload, a size that is
    returned is never negative. *)
Theorem cell_sizeof_type_error (r : RAMCell.t) (c : CloudCell.t) (n : Z) :
  (MemoryCell.entity r = PyInt n ->
   RAMCell.__sizeof__ r = (if n =? 0 then Return 0 else Raise TypeError, r)) /\
  (CloudCell.entity c = PyInt n ->
   CloudCell.__sizeof__ c = (if n =? 0 then Return 0 else Raise TypeError, c)) /\
  (forall k, fst (RAMCell.__sizeof__ r) = Return k -> 0 <= k) /\
  (forall k, fst (CloudCell.__sizeof__ c) = Return k -> 0 <= k).
Proof.
  rewrite cloud_sizeof_eval, ram_sizeof_eval. cbn [fst].
  split; [|split; [|split]].
  - intros ->. cbn. destruct (n =? 0); reflexivity.
  - intros ->. cbn. destruct (n =? 0); reflexivity.
  - intros k. apply guarded_len_nonneg.
  - intros k. apply guarded_len_nonneg.
Qed.

Lemma cell_sizeof_type_error_witness :
  RAMCell.__sizeof__ (snd (RAMCell.__set__ (PyInt 7) sample_ram_cell))
  = (Raise TypeError, snd (RAMCell.__set__ (PyInt 7) sample_ram_cell)).
Proof.
  apply (proj1 (cell_sizeof_type_error
                  (snd (RAMCell.__set__ (PyInt 7) sample_ram_cell))
                  sample_cloud_cell 7)).
  reflexivity.
Defined.

(** X12. A disk cell whose payload is [None] reads as an empty buffer,
    and one whose payload is bytes as a buffer holding exactly those
    bytes, positioned at the start.  After [__set__] with a path string,
    the type its signature declares, the read raises [TypeError].  The
    cell is never changed by a read. *)
Theorem disk_read (c : DiskCell.t) :
  (MemoryCell.entity c = PyNone ->
   DiskCell.__get__ c = (Return (io.mkBytesIO [] 0), c)) /\
  (forall b, MemoryCell.entity c = PyBytes b ->
   exists buffer,
     DiskCell.__get__ c = (Return buffer, c) /\
     extensions.io_to_bytes buffer = b /\ io.tell buffer = 0%nat) /\
  (forall path : string,
      DiskCell.__get__ (snd (DiskCell.__set__ (PyStr path) c))
      = (Raise TypeError, snd (DiskCell.__set__ (PyStr path) c))) /\
  snd (DiskCell.__get__ c) = c.
Proof.
  unfold DiskCell.__get__, mbind, M_bind, getattr, lift. cbn.
  split; [intros ->; reflexivity|].
  split; [intros b ->; eexists; repeat split|].
  split; reflexivity.
Qed.

Lemma disk_read_witness :
  exists buffer,
    DiskCell.__get__ sample_disk_cell = (Return buffer, sample_disk_cell) /\
    extensions.io_to_bytes buffer = abc /\ io.tell buffer = 0%nat.
Proof.
  apply (proj1 (proj2 (disk_read sample_disk_cell)) abc). reflexivity.
Defined.

(** X13. A cloud cell built on a future cannot be read: the future is
    called like a function, which raises [TypeError], whatever the future
    holds. *)
Theorem cloud_read_of_future (c : CloudCell.t) (outcome : result pyval) :
  call_fn c = Future outcome ->
  __get__ c = (Raise TypeError, c).
Proof.
  intros Hfn. unfold __get__, mbind, M_bind, getattr, await_call, raise. cbn.
  rewrite Hfn. reflexivity.
Qed.

Lemma cloud_read_of_future_witness :
  let c := CloudCell.__init__ 0 "k" (PyTuple [PyList []; PyDict []])
             (Future (Return (PyBytes abc))) in
  __get__ c = (Raise TypeError, c).
Proof.
  apply (cloud_read_of_future _ (Return (PyBytes abc))). reflexivity.
Defined.

(** X14. A read of a cloud cell returns [None] or ends with the exception
    of the call, never with a value of its own, and leaves the cell as it
    was: nothing is cached and no hit is recorded. *)
Theorem cloud_read_outcomes (c : CloudCell.t) :
  (forall v, fst (__get__ c) = Return v -> v = PyNone) /\
  (forall f e, call_fn c = Callable f -> f (entity c) = Raise e ->
               fst (__get__ c) = Raise e) /\
  snd (__get__ c) = c.
Proof.
  split; [|split; [|apply cloud_get_state]].
  - intros v. unfold __get__, mbind, M_bind, getattr, await_call, lift, raise. cbn.
    destruct (call_fn c) as [f|o]; [|discriminate].
    destruct (f _); cbn; congruence.
  - intros f e Hf He. rewrite (cloud_get_raises c f e Hf He). reflexivity.
Qed.

Lemma cloud_read_outcomes_witness :
  exists v, fst (__get__ sample_cloud_cell) = Return v /\ v = PyNone.
Proof.
  exists PyNone. split; [reflexivity|].
  apply (proj1 (cloud_read_outcomes sample_cloud_cell) PyNone). reflexivity.
Defined.

(** X15. A write into a cloud cell replaces the stored arguments: the next
    read calls [call_fn] on the written value, and the size becomes that
    of the written value. *)
Theorem cloud_write_replaces_arguments (c : CloudCell.t)
    (f : pyval -> result pyval) (value : pyval) :
  call_fn c = Callable f ->
  let c' := snd (__set__ value c) in
  entity c' = value /\
  call_fn c' = call_fn c /\
  key c' = key c /\
  __get__ c' = (match f value with Return _ => Return PyNone | Raise e => Raise e end, c') /\
  __sizeof__ c' = (if truthy value then len value else Return 0, c').
Proof.
  intros Hfn c'. repeat split.
  - unfold __get__, mbind, M_bind, getattr, await_call, lift. cbn.
    rewrite Hfn. destruct (f value); reflexivity.
  - apply cloud_sizeof_eval.
Qed.

Lemma cloud_write_replaces_arguments_witness :
  let c' := snd (__set__ (PyBytes abc) sample_cloud_cell) in
  entity c' = PyBytes abc /\
  call_fn c' = call_fn sample_cloud_cell /\
  key c' = key sample_cloud_cell /\
  __get__ c' = (Return PyNone, c') /\
  __sizeof__ c' = (Return 3, c').
Proof.
  apply (cloud_write_replaces_arguments sample_cloud_cell
           (fun _ => Return (PyBytes abc)) (PyBytes abc)).
  reflexivity.
Defined.

(** ** Managers along their histories *)

Section Histories.
Context {T : Type}.
Implicit Types (m : MemoryManager.t T) (tm : TierManager.t T)
  (o : History.op T) (ops : list (History.op T)).

Lemma run_snoc ops o tm :
  History.run (ops ++ [o]) tm = History.step (History.run ops tm) o.
Proof. unfold History.run. rewrite fold_left_app. reflexivity. Qed.

(** What every step preserves holds along every history. *)
Lemma run_invariant (P : TierManager.t T -> Prop) ops tm :
  (forall tm' o, P tm' -> P (History.step tm' o)) ->
  P tm -> P (History.run ops tm).
Proof.
  intros Hstep. revert tm. induction ops as [|o ops IH]; intros tm H; [exact H|].
  apply IH, Hstep, H.
Qed.

Lemma super_step tm o :
  TierManager.super (History.step tm o) =
  match o with
  | History.Start loop => snd (start loop (TierManager.super tm))
  | History.Stop => snd (stop (TierManager.super tm))
  | History.TaskEnds c => History.task_ends c (TierManager.super tm)
  | _ => TierManager.super tm
  end.
Proof.
  destruct o as [loop| |key| | | |key cell|c]; try reflexivity.
  - cbn. unfold TierManager.start, TierManager.inherited.
    destruct (start loop (TierManager.super tm)). reflexivity.
  - cbn. unfold TierManager.stop, TierManager.inherited.
    destruct (stop (TierManager.super tm)). reflexivity.
  - cbn. rewrite getitem_state. reflexivity.
Qed.

Lemma accounting_step tm o :
  _size (TierManager.super (History.step tm o)) = _size (TierManager.super tm) /\
  _cells (TierManager.super (History.step tm o)) = _cells (TierManager.super tm) /\
  _capacity (TierManager.super (History.step tm o)) = _capacity (TierManager.super tm).
Proof.
  rewrite super_step.
  destruct o as [[|]| |key| | | |key cell|[|]]; try rewrite stop_returns; repeat split.
Qed.

(** X16. No operation keeps the books: along every history from the
    constructor, the owner's writes to [cells] included, [used] stays 0,
    [free] stays the whole capacity, and the base dictionary [_cells]
    stays empty. *)
Theorem accounting_never_moves (capacity : Z) ops :
  let tm := History.run ops (TierManager.__init__ capacity) in
  TierManager.used tm = 0 /\
  TierManager.free tm = capacity /\
  _cells (TierManager.super tm) = ∅.
Proof.
  apply (run_invariant
           (fun tm => TierManager.used tm = 0 /\ TierManager.free tm = capacity /\
                      _cells (TierManager.super tm) = ∅)).
  - intros tm o (Hu & Hf & Hc).
    destruct (accounting_step tm o) as (Es & Ec & Ek).
    unfold TierManager.used, TierManager.free, used, free in *.
    rewrite Es, Ec, Ek. auto.
  - repeat split. unfold TierManager.free, free. cbn. lia.
Qed.

Lemma last_transition_snoc ops o :
  last_transition (ops ++ [o]) =
  match o with
  | History.Start _ => Some true
  | History.Stop => Some false
  | _ => last_transition ops
  end.
Proof. unfold last_transition. rewrite fold_left_app. reflexivity. Qed.

(** X17. Along every history from the constructor the flag [_running] is
    down exactly when [stop()] was called and no [start()] came after it;
    a manager that was never stopped is flagged running, and so is one
    whose [start()] failed for want of an event loop. *)
Theorem running_follows_last_transition (capacity : Z) ops :
  _running (TierManager.super (History.run ops (TierManager.__init__ capacity)))
  = match last_transition ops with
    | Some false => false
    | _ => true
    end.
Proof.
  induction ops as [|o ops IH] using rev_ind; [reflexivity|].
  rewrite run_snoc, last_transition_snoc, super_step.
  destruct o as [[|]| |key| | | |key cell|[|]]; try exact IH; try reflexivity.
  rewrite stop_returns. reflexivity.
Qed.

Lemma cells_step tm o :
  match o with History.Fill _ _ => False | _ => True end ->
  TierManager.cells (History.step tm o) = TierManager.cells tm.
Proof.
  destruct o as [loop| |key| | | |key cell|c]; try reflexivity.
  - intros _. cbn. unfold TierManager.start, TierManager.inherited.
    destruct (start loop (TierManager.super tm)). reflexivity.
  - intros _. cbn. unfold TierManager.stop, TierManager.inherited.
    destruct (stop (TierManager.super tm)). reflexivity.
  - intros _. cbn. rewrite getitem_state. reflexivity.
  - contradiction.
Qed.

(** X18. The classes offer no way to insert: in a history in which the
    owner never writes [cells] itself, every lookup, of any key and at any
    point, raises [KeyError] and leaves the manager as it was. *)
Theorem lookup_fails_unless_filled (capacity : Z) ops (key : string) :
  never_filled ops ->
  let tm := History.run ops (TierManager.__init__ capacity) in
  TierManager.__getitem__ key tm = (Raise (KeyError key), tm).
Proof.
  intros Hops tm. apply getitem_absent.
  assert (E : TierManager.cells tm = ∅).
  { subst tm. induction ops as [|o ops IH] using rev_ind; [reflexivity|].
    apply Forall_app in Hops as [Hops Ho]. apply Forall_cons_1 in Ho as [Ho _].
    rewrite run_snoc, cells_step by exact Ho. apply IH, Hops. }
  rewrite E. apply lookup_empty.
Qed.

Lemma tasks_in_step_step tm o :
  tasks_in_step (TierManager.super tm) ->
  tasks_in_step (TierManager.super (History.step tm o)).
Proof.
  intros H. rewrite super_step.
  destruct o as [[|]| |key| | | |key cell|c]; try exact H.
  - right. exists (Pending 0), (Pending 0). split; reflexivity.
  - rewrite stop_returns. destruct H as [[Hp Hf]|(sp & sf & Hp & Hf)].
    + left. cbn. rewrite Hp, Hf. split; reflexivity.
    + right. cbn. rewrite Hp, Hf. cbn. unfold cancel. cbn.
      destruct sp, sf; eauto.
  - destruct H as [[Hp Hf]|(sp & sf & Hp & Hf)].
    + left. destruct c; cbn; rewrite ?Hp, ?Hf; split; reflexivity.
    + right. destruct c; cbn; rewrite ?Hp, ?Hf; cbn; eauto.
Qed.

(** X19. Along every history from the constructor, in which the event
    loop may run any held task to its end at any point, the two task
    handles go together: both are absent, or both are present, each
    wrapping its own coroutine.  Neither [stop()] nor a failed [start()]
    drops or replaces one handle without the other. *)
Theorem tasks_stay_in_step (capacity : Z) ops :
  tasks_in_step (TierManager.super (History.run ops (TierManager.__init__ capacity))).
Proof.
  apply (run_invariant (fun tm => tasks_in_step (TierManager.super tm))).
  - intros tm o. apply tasks_in_step_step.
  - left. split; reflexivity.
Qed.




(** X21. Entering a manager inside an event loop returns the manager
    itself, started; leaving it afterwards lowers the flag, clears the
    event and cancels both tasks (each, still pending, has then one
    cancellation request), with capacity, cells and size untouched.
    Entering outside an event loop raises [RuntimeError] and leaves the
    flag up although no task was created. *)
Theorem enter_then_exit m :
  let entered := snd (__aenter__ true m) in
  __aenter__ true m = (Return entered, entered) /\
  _running entered = true /\
  __aexit__ entered =
  (Return tt,
   MemoryManager.mk (_capacity m) (_cells m) (_size m) false false
     (Some (mkTask _periodic_rerank (Pending 1)))
     (Some (mkTask _forced_rerank (Pending 1)))) /\
  __aenter__ false m = (Raise RuntimeError, set__running true m).
Proof. destruct m. repeat split. Qed.

End Histories.

Lemma lookup_fails_unless_filled_witness :
  let tm : RAMManager.t :=
    History.run [History.Start true; History.GetItem "a"; History.Stop]
      (TierManager.__init__ 1024) in
  TierManager.__getitem__ "a" tm = (Raise (KeyError "a"), tm).
Proof.
  apply (lookup_fails_unless_filled (T := RAMCell.t) 1024
           [History.Start true; History.GetItem "a"; History.Stop] "a").
  repeat constructor.
Defined.


(** ** The storage wrapper *)

Section StorageFacts.
Context {W WriteResult Buckets Objects : Type}.
Context (new_client :
           string -> string -> string ->
           Storage.Minio W WriteResult Buckets Objects + Storage.client_error).
Implicit Types (self : Storage.t) (w : W) (bucket object_name : string).

(** X22. Without a bucket argument and without a current bucket, every
    method that addresses a bucket raises [ValueError] before it creates a
    client: the remote store is not contacted. *)
Theorem no_bucket_no_request self w (object_name file_path prefix : string) :
  Storage.current_bucket self = None ->
  Storage.get_object new_client self object_name None w = (Storage.Fail Storage.no_bucket, w) /\
  Storage.list_objects new_client self prefix None w = (Storage.Fail Storage.no_bucket, w) /\
  Storage.put_object new_client self object_name file_path None w
  = (Storage.Fail Storage.no_bucket, w) /\
  Storage.remove_object new_client self object_name None w = (Storage.Fail Storage.no_bucket, w) /\
  Storage.remove_bucket new_client self None w = (Storage.Fail Storage.no_bucket, w) /\
  Storage.make_bucket new_client self None w = (Storage.Fail Storage.no_bucket, w).
Proof.
  intros H.
  unfold Storage.get_object, Storage.list_objects, Storage.put_object,
    Storage.remove_object, Storage.remove_bucket, Storage.make_bucket,
    Storage.resolve_bucket, mbind, Storage.SM_bind.
  rewrite H. repeat split.
Qed.

(** X23. The current bucket is the default and nothing more: once it is
    set to [bucket], a call without a bucket argument does what the call
    with [bucket] given does, and a call with a bucket argument does not
    depend on the current bucket at all. *)
Theorem current_bucket_is_default self (bucket other object_name file_path prefix : string) :
  let self' := Storage.set_current_bucket bucket self in
  (Storage.get_object new_client self' object_name None
   = Storage.get_object new_client self object_name (Some bucket) /\
   Storage.list_objects new_client self' prefix None
   = Storage.list_objects new_client self prefix (Some bucket) /\
   Storage.put_object new_client self' object_name file_path None
   = Storage.put_object new_client self object_name file_path (Some bucket) /\
   Storage.remove_object new_client self' object_name None
   = Storage.remove_object new_client self object_name (Some bucket) /\
   Storage.remove_bucket new_client self' None
   = Storage.remove_bucket new_client self (Some bucket) /\
   Storage.make_bucket new_client self' None
   = Storage.make_bucket new_client self (Some bucket)) /\
  (Storage.get_object new_client self' object_name (Some other)
   = Storage.get_object new_client self object_name (Some other) /\
   Storage.put_object new_client self' object_name file_path (Some other)
   = Storage.put_object new_client self object_name file_path (Some other) /\
   Storage.remove_object new_client self' object_name (Some other)
   = Storage.remove_object new_client self object_name (Some other)).
Proof. destruct self. repeat split. Qed.

(** X24. When the request of [get_object] fails, be it in creating the
    client or in the call, with any exception, the caller gets
    [UnboundLocalError] for the local [response]: the [finally] clause
    reads the variable the failed call never bound, and its exception
    replaces the descriptive one. *)
Theorem failed_get_raises_unbound_local self w w' (object_name : string)
    (bucket_name : option string) (bucket : string) (e : Storage.client_error) :
  Storage.resolve_bucket self bucket_name w = (Storage.Ok bucket, w) ->
  Storage.via_client new_client self
    (fun c => Storage.client_get_object c bucket object_name) w = (inr e, w') ->
  Storage.get_object new_client self object_name bucket_name w
  = (Storage.Fail (Storage.UnboundLocalError "response"), w').
Proof.
  intros Hb Hc. unfold Storage.get_object, mbind, Storage.SM_bind.
  rewrite Hb, Hc. reflexivity.
Qed.

(** X25. When the request succeeds and the response closes without error,
    [get_object] returns a buffer holding exactly the data of the
    response; if reading the data fails with an exception derived from
    [Exception], the caller gets the descriptive exception naming object
    and bucket.  Either way the response was closed and released. *)
Theorem successful_get self w w1 w2 w3 w4 (object_name bucket : string)
    (response : Storage.Response W) (d : list byte + Storage.client_error) :
  Storage.via_client new_client self
    (fun c => Storage.client_get_object c bucket object_name) w = (inl response, w1) ->
  Storage.data response w1 = (d, w2) ->
  Storage.truth response = true ->
  Storage.close response w2 = (inl tt, w3) ->
  Storage.release_conn response w3 = (inl tt, w4) ->
  match d with
  | inl bytes =>
      exists buffer,
        Storage.get_object new_client self object_name (Some bucket) w
        = (Storage.Ok buffer, w4) /\
        extensions.io_to_bytes buffer = bytes /\ io.tell buffer = 0%nat
  | inr e =>
      Storage.is_exception e = true ->
      Storage.get_object new_client self object_name (Some bucket) w
      = (Storage.Fail
           (Storage.Exception
              ("Failed to get object " +:+ object_name +:+ " from bucket " +:+ bucket
               +:+ ": " +:+ Storage.text e) e), w4)
  end.
Proof.
  intros Hc Hd Ht Hcl Hr.
  unfold Storage.get_object, mbind, Storage.SM_bind, Storage.resolve_bucket. cbn.
  rewrite Hc, Hd, Ht. destruct d as [bytes|e].
  - rewrite Hcl, Hr. eexists. repeat split.
  - intros He. rewrite He, Hcl, Hr. reflexivity.
Qed.

(** X26. A pair key means one thing for reading and deleting and another
    for writing: [storage[(first, second)]] and [del storage[(first,
    second)]] address the object [first] in the bucket [second], but
    [storage[(first, second)] = path] uploads the local file named
    [second] as object [first] into the bucket named [path].  The same
    holds for a pair with a list of seconds and for a list of pairs: every
    upload handed to the pool goes into the bucket named [path]. *)
Theorem pair_key_addresses self (first second path : string)
    (seconds : list string) (pairs : list (string * string)) :
  Storage.__getitem__ new_client self (Storage.KPair first second)
  = Storage.Direct
      (Storage.get_object new_client self first (Some second)) /\
  Storage.__delitem__ new_client self (Storage.KPair first second)
  = Storage.Direct
      (Storage.propagate
         (Storage.via_client new_client self
            (fun c => Storage.client_remove_object c second first))) /\
  Storage.__setitem__ new_client self (Storage.KPair first second) path
  = Storage.Direct
      (Storage.propagate
         (Storage.via_client new_client self
            (fun c => Storage.client_fput_object c path first second))) /\
  Storage.__setitem__ new_client self (Storage.KPairList first seconds) path
  = Storage.Pooled
      (map (fun b =>
              Storage.propagate
                (Storage.via_client new_client self
                   (fun c => Storage.client_fput_object c path first b)))
           seconds) /\
  (pairs <> [] ->
   Storage.__setitem__ new_client self (Storage.KListPairs pairs) path
   = Storage.Pooled
       (map (fun p =>
               Storage.propagate
                 (Storage.via_client new_client self
                    (fun c => Storage.client_fput_object c path (fst p) (snd p))))
            pairs)).
Proof.
  repeat split. intros Hne. destruct pairs; [contradiction | reflexivity].
Qed.

Lemma shape_of_map {A B : Type} (f : A -> B) (l : list A) :
  Storage.shape_of (Storage.Pooled (map f l)) = Storage.PoolOf (length l).
Proof. cbn. rewrite length_map. reflexivity. Qed.

(** X27. Whatever the key, the three subscript methods dispatch alike: one
    call each, a pool of the same number of jobs each, or the same
    exception each.  For all three, an empty list as key raises
    [IndexError] before any call is made, a pair with an empty list of
    buckets gives a pool of no jobs and raises nothing, and a key that is
    neither a tuple, a [str] nor a list raises [ValueError] with the text
    of its type. *)
Theorem empty_list_key self (k : Storage.key) (first path type_text : string) :
  (Storage.shape_of (Storage.__setitem__ new_client self k path)
   = Storage.shape_of (Storage.__getitem__ new_client self k) /\
   Storage.shape_of (Storage.__delitem__ new_client self k)
   = Storage.shape_of (Storage.__getitem__ new_client self k)) /\
  (Storage.shape_of (Storage.__getitem__ new_client self (Storage.KListStrs []))
   = Storage.Failure Storage.IndexError /\
   Storage.shape_of (Storage.__getitem__ new_client self (Storage.KListPairs []))
   = Storage.Failure Storage.IndexError) /\
  Storage.shape_of (Storage.__getitem__ new_client self (Storage.KPairList first []))
  = Storage.PoolOf 0 /\
  Storage.shape_of (Storage.__getitem__ new_client self (Storage.KOther type_text))
  = Storage.Failure (Storage.ValueError ("Invalid key type: " +:+ type_text)).
Proof.
  split; [|repeat split].
  destruct k as [o|a b|a l|l|l|ty]; try (split; reflexivity).
  - cbn [Storage.__setitem__ Storage.__getitem__ Storage.__delitem__].
    rewrite !shape_of_map. split; reflexivity.
  - destruct l as [|p l]; [split; reflexivity|].
    cbn [Storage.__setitem__ Storage.__getitem__ Storage.__delitem__].
    rewrite !shape_of_map. split; reflexivity.
  - destruct l as [|p l]; [split; reflexivity|].
    cbn [Storage.__setitem__ Storage.__getitem__ Storage.__delitem__].
    rewrite !shape_of_map. split; reflexivity.
Qed.

End StorageFacts.

Lemma no_bucket_no_request_witness :
  Storage.get_object sample_new_client sample_storage "a" None []
  = (Storage.Fail Storage.no_bucket, []) /\
  Storage.put_object sample_new_client sample_storage "a" "/tmp/a" None []
  = (Storage.Fail Storage.no_bucket, []).
Proof.
  destruct (no_bucket_no_request sample_new_client sample_storage [] "a" "/tmp/a" "")
    as (Hg & _ & Hp & _); [reflexivity|].
  split; [exact Hg | exact Hp].
Defined.

Lemma failed_get_raises_unbound_local_witness :
  Storage.get_object sample_new_client sample_storage "missing" (Some "b") []
  = (Storage.Fail (Storage.UnboundLocalError "response"),
     [("get_object", ["b"; "missing"])]).
Proof.
  apply (failed_get_raises_unbound_local sample_new_client sample_storage []
           [("get_object", ["b"; "missing"])]
           "missing" (Some "b") "b" (Storage.mkClientError true "NoSuchKey"));
    reflexivity.
Defined.

Lemma successful_get_witness :
  exists buffer,
    Storage.get_object sample_new_client sample_storage "a" (Some "b") []
    = (Storage.Ok buffer,
       [("get_object", ["b"; "a"]); ("data", []); ("close", []); ("release_conn", [])]) /\
    extensions.io_to_bytes buffer = abc /\ io.tell buffer = 0%nat.
Proof.
  apply (successful_get sample_new_client sample_storage []
           [("get_object", ["b"; "a"])]
           [("get_object", ["b"; "a"]); ("data", [])]
           [("get_object", ["b"; "a"]); ("data", []); ("close", [])]
           [("get_object", ["b"; "a"]); ("data", []); ("close", []); ("release_conn", [])]
           "a" "b" sample_response (inl abc)); reflexivity.
Defined.

(** ** The storage base class *)

Lemma length_append (s t : string) :
  String.length (s +:+ t) = (String.length s + String.length t)%nat.
Proof.
  induction s as [|a s IH]; [reflexivity|].
  change (String a s +:+ t) with (String a (s +:+ t)). cbn. f_equal. exact IH.
Qed.

Lemma append_cancel_r (t s1 s2 : string) : s1 +:+ t = s2 +:+ t -> s1 = s2.
Proof.
  revert s2. induction s1 as [|a s1 IH]; intros [|b s2] E.
  - reflexivity.
  - apply (f_equal String.length) in E. rewrite !length_append in E. cbn in E. lia.
  - apply (f_equal String.length) in E. rewrite !length_append in E. cbn in E. lia.
  - change (String a (s1 +:+ t) = String b (s2 +:+ t)) in E.
    injection E as -> E. f_equal. apply IH, E.
Qed.

(** X28. The constructor of the storage base class accepts the backend
    ["minio"] and no other: any other name, ["boto3"] of the signature
    included, raises [BackendNotSupportedError], whose message is
    ["Backend <name> is not supported yet"] and tells the rejected names
    apart. *)
Theorem only_minio_backend (endpoint access_key secret_key backend other : string) :
  (BaseStorage.__init__ endpoint access_key secret_key backend = inl tt
   <-> backend = "minio") /\
  (backend <> "minio" ->
   BaseStorage.__init__ endpoint access_key secret_key backend
   = inr (BaseStorage.BackendNotSupportedError
            ("Backend " +:+ backend +:+ " is not supported yet"))) /\
  BaseStorage.__init__ endpoint access_key secret_key "boto3"
  = inr (BaseStorage.BackendNotSupportedError "Backend boto3 is not supported yet") /\
  (BaseStorage.not_supported backend = BaseStorage.not_supported other -> backend = other).
Proof.
  unfold BaseStorage.__init__, BaseStorage.not_supported.
  destruct (String.eqb_spec backend "minio") as [->|Hne]; cbn.
  - repeat split; try congruence.
    intros E. injection E as E. apply String.app_inj in E.
    apply append_cancel_r in E. exact E.
  - repeat split; try congruence; try discriminate.
    intros E. injection E as E. apply String.app_inj in E.
    apply append_cancel_r in E. exact E.
Qed.

Lemma only_minio_backend_witness :
  BaseStorage.__init__ "localhost:9000" "user" "secret" "s3"
  = inr (BaseStorage.BackendNotSupportedError "Backend s3 is not supported yet").
Proof.
  apply (proj1 (proj2 (only_minio_backend "localhost:9000" "user" "secret" "s3" ""))).
  discriminate.
Defined.

Lemma pair_key_addresses_witness :
  Storage.__setitem__ sample_new_client sample_storage
    (Storage.KListPairs [("a", "b")]) "/tmp/a"
  = Storage.Pooled
      [Storage.propagate
         (Storage.via_client sample_new_client sample_storage
            (fun c => Storage.client_fput_object c "/tmp/a" "a" "b"))].
Proof.
  apply (proj2 (proj2 (proj2 (proj2
           (pair_key_addresses sample_new_client sample_storage "a" "b" "/tmp/a"
              [] [("a", "b")]))))).
  discriminate.
Defined.
